(** * Dwebble: the WebSocket server facade over the dwebble_rws engine

    A shallow embedding of [FDwebbleWebSocketServerImpl]
    (Source/Dwebble/WebSocketServer.cpp, Source/Dwebble/DwebbleWebSocketServer.cpp
    and Source/DwebbleWebSocket/WebSocketServer.cpp, which differ only in the
    type of [Config.Subprotocols] and in the spelling of the engine's
    enumerators), and the properties of its lifecycle, of its configuration
    translation, of its event marshaling and of its result mapping.

    The facade is stateful and talks to an external engine through the C
    functions of dwebble_rws.h.  Both are modelled by explicit state passing:
    a state monad over the object's fields, the engine's own state and the
    list of boundary calls made so far. *)

From Stdlib Require Import ZArith NArith List String Ascii Bool Lia.
Import ListNotations.

Local Open Scope string_scope.
Local Open Scope Z_scope.

(** ** Host-side types (DwebbleTypes.h) *)

(** [FString]: the host's text type. *)
Definition FString := string.

(** [TArray<uint8>]. *)
Definition TArray_uint8 := list Byte.byte.

(** [enum class EDwebbleWSEventType : uint8]. *)
Inductive EEventType :=
| None_            (* None = 0 *)
| ClientConnected  (* = 1 *)
| ClientDisconnected (* = 2 *)
| MessageReceived  (* = 3 *)
| Error.           (* = 4 *)

(** [enum class EDwebbleWSResult : uint8]. *)
Inductive EResult :=
| Ok               (* = 0 *)
| InvalidHandle    (* = 1 *)
| InvalidParam     (* = 2 *)
| AlreadyRunning   (* = 3 *)
| NotRunning       (* = 4 *)
| BindFailed       (* = 5 *)
| TlsError         (* = 6 *)
| RuntimeError     (* = 7 *)
| SendFailed       (* = 8 *)
| ConnectionClosed. (* = 9 *)

(** [struct FDwebbleWSEvent]. *)
Record FEvent := {
  EventType : EEventType;
  ConnectionId : N;          (* uint64 *)
  Data : TArray_uint8;
  ErrorMessage : FString
}.

(** The default-constructed event. *)
Definition FEvent_default : FEvent :=
  {| EventType := None_; ConnectionId := 0%N; Data := []; ErrorMessage := "" |}.

(** ** The engine boundary (dwebble_rws.h) *)

(** [DwebbleWSServerHandle]: an opaque pointer; [nullptr] is address 0. *)
Definition DwebbleWSServerHandle := N.
Definition nullptr : DwebbleWSServerHandle := 0%N.

(** [struct DwebbleWSServerConfig].  A [const char*] field is [None] when the
    pointer is null and [Some s] when it points to the C string [s]. *)
Record DwebbleWSServerConfig := {
  port : Z;                          (* uint16_t *)
  bind_address : option string;
  subprotocols : option string;
  tls_cert_path : option string;
  tls_key_path : option string
}.

(** [struct DwebbleWSEvent], as filled in by [dwebble_rws_server_poll].
    [data] is the engine-owned buffer behind the pointer ([None] when null)
    and [data_len] the length the engine reports for it. *)
Record DwebbleWSEvent := {
  event_type : Z;                    (* enum DwebbleWSEventType : int32 *)
  connection_id : N;                 (* uint64_t *)
  data : option (list Byte.byte);
  data_len : Z;
  error_message : option string
}.

(** The enumerators of [DwebbleWSResult] and [DwebbleWSEventType] (spelled
    [DWEBBLE_RESULT_*] and [DwebbleWSResult::Ok], ... in the two other copies
    of the facade).  dwebble_rws.h, which gives them their values, is
    generated by the engine's build and is not in the plugin's Source tree, so
    the values are kept abstract.  The two [switch] statements of the facade
    compile only when their case labels are pairwise different, which is what
    the two [NoDup] fields record. *)
Class DwebbleRwsHeader := {
  DWEBBLE_WS_RESULT_OK : Z;
  DWEBBLE_WS_RESULT_INVALID_HANDLE : Z;
  DWEBBLE_WS_RESULT_INVALID_PARAM : Z;
  DWEBBLE_WS_RESULT_ALREADY_RUNNING : Z;
  DWEBBLE_WS_RESULT_NOT_RUNNING : Z;
  DWEBBLE_WS_RESULT_BIND_FAILED : Z;
  DWEBBLE_WS_RESULT_TLS_ERROR : Z;
  DWEBBLE_WS_RESULT_RUNTIME_ERROR : Z;
  DWEBBLE_WS_RESULT_SEND_FAILED : Z;
  DWEBBLE_WS_RESULT_CONNECTION_CLOSED : Z;
  DWEBBLE_WS_EVENT_TYPE_NONE : Z;
  DWEBBLE_WS_EVENT_TYPE_CLIENT_CONNECTED : Z;
  DWEBBLE_WS_EVENT_TYPE_CLIENT_DISCONNECTED : Z;
  DWEBBLE_WS_EVENT_TYPE_MESSAGE_RECEIVED : Z;
  DWEBBLE_WS_EVENT_TYPE_ERROR : Z;
  DwebbleWSResult_distinct : NoDup
    [ DWEBBLE_WS_RESULT_OK; DWEBBLE_WS_RESULT_INVALID_HANDLE;
      DWEBBLE_WS_RESULT_INVALID_PARAM; DWEBBLE_WS_RESULT_ALREADY_RUNNING;
      DWEBBLE_WS_RESULT_NOT_RUNNING; DWEBBLE_WS_RESULT_BIND_FAILED;
      DWEBBLE_WS_RESULT_TLS_ERROR; DWEBBLE_WS_RESULT_RUNTIME_ERROR;
      DWEBBLE_WS_RESULT_SEND_FAILED; DWEBBLE_WS_RESULT_CONNECTION_CLOSED ];
  DwebbleWSEventType_distinct : NoDup
    [ DWEBBLE_WS_EVENT_TYPE_NONE; DWEBBLE_WS_EVENT_TYPE_CLIENT_CONNECTED;
      DWEBBLE_WS_EVENT_TYPE_CLIENT_DISCONNECTED;
      DWEBBLE_WS_EVENT_TYPE_MESSAGE_RECEIVED; DWEBBLE_WS_EVENT_TYPE_ERROR ]
}.

(** The ten enumerators of [DwebbleWSResult] that the facade knows by name. *)
Definition DwebbleWSResult_labels `{DwebbleRwsHeader} : list Z :=
  [ DWEBBLE_WS_RESULT_OK; DWEBBLE_WS_RESULT_INVALID_HANDLE;
    DWEBBLE_WS_RESULT_INVALID_PARAM; DWEBBLE_WS_RESULT_ALREADY_RUNNING;
    DWEBBLE_WS_RESULT_NOT_RUNNING; DWEBBLE_WS_RESULT_BIND_FAILED;
    DWEBBLE_WS_RESULT_TLS_ERROR; DWEBBLE_WS_RESULT_RUNTIME_ERROR;
    DWEBBLE_WS_RESULT_SEND_FAILED; DWEBBLE_WS_RESULT_CONNECTION_CLOSED ].

(** The engine's functions.  The engine keeps state of its own (sockets,
    queues), of a type the facade never sees; every function takes that state
    and gives back the new one next to its C return value.
    [dwebble_rws_server_poll] returns [bool] and fills its out-parameter:
    [Some ev] stands for [true] with [ev] written, [None] for [false]. *)
Record Engine := {
  engine_state : Type;
  dwebble_rws_server_create :
    DwebbleWSServerConfig -> engine_state -> DwebbleWSServerHandle * engine_state;
  dwebble_rws_server_start :
    DwebbleWSServerHandle -> engine_state -> Z * engine_state;
  dwebble_rws_server_stop :
    DwebbleWSServerHandle -> engine_state -> Z * engine_state;
  dwebble_rws_server_destroy :
    DwebbleWSServerHandle -> engine_state -> engine_state;
  dwebble_rws_server_get_port :
    DwebbleWSServerHandle -> engine_state -> Z * engine_state;
  dwebble_rws_server_get_connection_count :
    DwebbleWSServerHandle -> engine_state -> Z * engine_state;
  dwebble_rws_server_info :
    DwebbleWSServerHandle -> engine_state -> option string * engine_state;
  dwebble_rws_free_string : string -> engine_state -> engine_state;
  dwebble_rws_server_send :
    DwebbleWSServerHandle -> N -> list Byte.byte -> engine_state -> Z * engine_state;
  dwebble_rws_server_send_text :
    DwebbleWSServerHandle -> N -> string -> engine_state -> Z * engine_state;
  dwebble_rws_server_disconnect :
    DwebbleWSServerHandle -> N -> engine_state -> Z * engine_state;
  dwebble_rws_server_poll :
    DwebbleWSServerHandle -> engine_state -> option DwebbleWSEvent * engine_state
}.

(** One call across the boundary, with its arguments and what it returned. *)
Inductive EngineCall :=
| rws_create (cfg : DwebbleWSServerConfig) (ret : DwebbleWSServerHandle)
| rws_start (h : DwebbleWSServerHandle) (ret : Z)
| rws_stop (h : DwebbleWSServerHandle) (ret : Z)
| rws_destroy (h : DwebbleWSServerHandle)
| rws_get_port (h : DwebbleWSServerHandle)
| rws_get_connection_count (h : DwebbleWSServerHandle)
| rws_info (h : DwebbleWSServerHandle) (ret : option string)
| rws_free_string (s : string)
| rws_send (h : DwebbleWSServerHandle) (id : N) (bytes : list Byte.byte)
| rws_send_text (h : DwebbleWSServerHandle) (id : N) (text : string)
| rws_disconnect (h : DwebbleWSServerHandle) (id : N)
| rws_poll (h : DwebbleWSServerHandle) (ret : option DwebbleWSEvent).

(** ** Unreal Engine core helpers used by the facade *)

(** The two text conversions of the engine's core library; their code is not
    part of the plugin. *)
Class UnrealCore := {
  StringCast_ANSICHAR : FString -> string;   (* StringCast<ANSICHAR> *)
  UTF8_TO_TCHAR : string -> FString
}.

(** [FString::Join(Parts, Separator)]. *)
Fixpoint FString_Join (Parts : list FString) (Separator : FString) : FString :=
  match Parts with
  | [] => ""
  | [p] => p
  | p :: rest => p ++ Separator ++ FString_Join rest Separator
  end.

(** No character of the string is a comma. *)
Fixpoint comma_free (s : string) : Prop :=
  match s with
  | EmptyString => True
  | String c s' => c <> ","%char /\ comma_free s'
  end.

(** The pieces of a string between its commas, in order; a string without a
    comma is its own single piece. *)
Fixpoint split_at_commas (s : string) : list string :=
  match s with
  | EmptyString => [""]
  | String c s' =>
      if Ascii.eqb c "," then "" :: split_at_commas s'
      else
        match split_at_commas s' with
        | [] => [String c ""]
        | piece :: pieces => String c piece :: pieces
        end
  end.

(** [FString::IsEmpty]. *)
Definition FString_IsEmpty (s : FString) : bool :=
  match s with EmptyString => true | String _ _ => false end.

(** [TArray::IsEmpty]. *)
Definition TArray_IsEmpty {A} (l : list A) : bool :=
  match l with [] => true | _ :: _ => false end.

(** [static_cast<uint16_t>] of an integer. *)
Definition static_cast_uint16 (v : Z) : Z := v mod 65536.

(** [static_cast<int32>] of an integer. *)
Definition static_cast_int32 (v : Z) : Z := (v + 2147483648) mod 4294967296 - 2147483648.

(** [FMemory::Memcpy] of [n] bytes out of a buffer.  The engine reports in
    [data_len] the length of the buffer it hands over, so the [n] bytes are
    there. *)
Definition Memcpy (src : list Byte.byte) (n : Z) : list Byte.byte :=
  firstn (Z.to_nat n) src.

(** ** What a record of boundary calls says about handles *)

(** The handles the engine gave out: the non-null results of
    [dwebble_rws_server_create], oldest first. *)
Fixpoint created (tr : list EngineCall) : list DwebbleWSServerHandle :=
  match tr with
  | [] => []
  | rws_create _ h :: tr' =>
      if (h =? nullptr)%N then created tr' else h :: created tr'
  | _ :: tr' => created tr'
  end.

(** What each call of [dwebble_rws_server_create] returned, null or not,
    oldest first. *)
Fixpoint create_returns (tr : list EngineCall) : list DwebbleWSServerHandle :=
  match tr with
  | [] => []
  | rws_create _ h :: tr' => h :: create_returns tr'
  | _ :: tr' => create_returns tr'
  end.

(** The handles passed to [dwebble_rws_server_destroy], oldest first. *)
Fixpoint destroyed (tr : list EngineCall) : list DwebbleWSServerHandle :=
  match tr with
  | [] => []
  | rws_destroy h :: tr' => h :: destroyed tr'
  | _ :: tr' => destroyed tr'
  end.

(** What the latest call of [dwebble_rws_server_create] returned; [nullptr]
    when there was none. *)
Definition last_create (tr : list EngineCall) : DwebbleWSServerHandle :=
  fold_left (fun acc c => match c with rws_create _ h => h | _ => acc end)
            tr nullptr.

Arguments last_create tr : simpl never.

(** Remove one occurrence of [h]. *)
Fixpoint remove_one (h : DwebbleWSServerHandle) (l : list DwebbleWSServerHandle)
  : list DwebbleWSServerHandle :=
  match l with
  | [] => []
  | x :: l' => if (x =? h)%N then l' else x :: remove_one h l'
  end.

(** The handles given out and never destroyed: the leaked ones, when the
    record is that of a whole lifetime. *)
Definition leaked (tr : list EngineCall) : list DwebbleWSServerHandle :=
  fold_left (fun live h => remove_one h live) (destroyed tr) (created tr).

(** Every handle the engine gave out was released, and released once. *)
Definition released_exactly_once (tr : list EngineCall) : Prop :=
  forall h, In h (created tr) -> count_occ N.eq_dec (destroyed tr) h = 1%nat.

(** The strings passed to [dwebble_rws_free_string]. *)
Fixpoint freed_strings (tr : list EngineCall) : list string :=
  match tr with
  | [] => []
  | rws_free_string s :: tr' => s :: freed_strings tr'
  | _ :: tr' => freed_strings tr'
  end.

(** ** The facade object

    [FDwebbleWebSocketServerImpl], generic in the host configuration type
    [Cfg] and in the lines of [Start] that fill the engine's configuration
    struct from it ([MakeFfiConfig]); the two configuration types of the
    plugin instantiate it below. *)

Section Facade.

Context {Hdr : DwebbleRwsHeader} {UE : UnrealCore}.
Variable E : Engine.
Variable Cfg : Type.
Variable MakeFfiConfig : Cfg -> DwebbleWSServerConfig.

(** The data members of the class. *)
Record FDwebbleWebSocketServerImpl := {
  Config : Cfg;
  ServerHandle : DwebbleWSServerHandle;
  bIsRunning : bool
}.

(** What a member function can read and change: the object, the engine
    behind the boundary, and the record of the calls made across it. *)
Record World := {
  self : FDwebbleWebSocketServerImpl;
  rws : engine_state E;
  calls : list EngineCall
}.

(** *** A state monad over [World] *)

Definition M (A : Type) : Type := World -> A * World.

Definition ret {A} (a : A) : M A := fun w => (a, w).

Definition bind {A B} (m : M A) (k : A -> M B) : M B :=
  fun w => let (a, w') := m w in k a w'.

Notation "x <- m ;; k" := (bind m (fun x => k))
  (at level 61, m at next level, right associativity).
Notation "m ;;; k" := (bind m (fun _ => k))
  (at level 61, right associativity).

Definition get_Config : M Cfg := fun w => (Config (self w), w).
Definition get_ServerHandle : M DwebbleWSServerHandle :=
  fun w => (ServerHandle (self w), w).
Definition get_bIsRunning : M bool := fun w => (bIsRunning (self w), w).

Definition set_ServerHandle (h : DwebbleWSServerHandle) : M unit := fun w =>
  (tt, {| self := {| Config := Config (self w); ServerHandle := h;
                     bIsRunning := bIsRunning (self w) |};
          rws := rws w; calls := calls w |}).

Definition set_bIsRunning (b : bool) : M unit := fun w =>
  (tt, {| self := {| Config := Config (self w);
                     ServerHandle := ServerHandle (self w);
                     bIsRunning := b |};
          rws := rws w; calls := calls w |}).

(** A boundary call: run the engine function on the engine's state and
    append the call to the record. *)
Definition ffi {A} (f : engine_state E -> A * engine_state E)
           (log : A -> EngineCall) : M A := fun w =>
  let (a, e') := f (rws w) in
  (a, {| self := self w; rws := e'; calls := calls w ++ [log a] |}).

Definition ffi_void (f : engine_state E -> engine_state E)
           (log : EngineCall) : M unit :=
  ffi (fun e => (tt, f e)) (fun _ => log).

(** *** Result and event-type mapping *)

(** [ConvertResult]: the [switch] over the engine's result code. *)
Definition ConvertResult (Result : Z) : EResult :=
  if Result =? DWEBBLE_WS_RESULT_OK then Ok
  else if Result =? DWEBBLE_WS_RESULT_INVALID_HANDLE then InvalidHandle
  else if Result =? DWEBBLE_WS_RESULT_INVALID_PARAM then InvalidParam
  else if Result =? DWEBBLE_WS_RESULT_ALREADY_RUNNING then AlreadyRunning
  else if Result =? DWEBBLE_WS_RESULT_NOT_RUNNING then NotRunning
  else if Result =? DWEBBLE_WS_RESULT_BIND_FAILED then BindFailed
  else if Result =? DWEBBLE_WS_RESULT_TLS_ERROR then TlsError
  else if Result =? DWEBBLE_WS_RESULT_RUNTIME_ERROR then RuntimeError
  else if Result =? DWEBBLE_WS_RESULT_SEND_FAILED then SendFailed
  else if Result =? DWEBBLE_WS_RESULT_CONNECTION_CLOSED then ConnectionClosed
  else RuntimeError.

(** [ConvertEventType]. *)
Definition ConvertEventType (Type_ : Z) : EEventType :=
  if Type_ =? DWEBBLE_WS_EVENT_TYPE_NONE then None_
  else if Type_ =? DWEBBLE_WS_EVENT_TYPE_CLIENT_CONNECTED then ClientConnected
  else if Type_ =? DWEBBLE_WS_EVENT_TYPE_CLIENT_DISCONNECTED then ClientDisconnected
  else if Type_ =? DWEBBLE_WS_EVENT_TYPE_MESSAGE_RECEIVED then MessageReceived
  else if Type_ =? DWEBBLE_WS_EVENT_TYPE_ERROR then Error
  else None_.

(** *** Construction and lifecycle *)

(** [IServer::Create]: the constructor stores the configuration and starts
    with a null handle, not running.  [e0] is the engine's state at that
    moment. *)
Definition Create (InConfig : Cfg) (e0 : engine_state E) : World :=
  {| self := {| Config := InConfig; ServerHandle := nullptr;
                bIsRunning := false |};
     rws := e0; calls := [] |}.

(** [Start]. *)
Definition Start : M EResult :=
  running <- get_bIsRunning ;;
  if running then ret AlreadyRunning
  else
    cfg <- get_Config ;;
    let FfiConfig := MakeFfiConfig cfg in
    h <- ffi (dwebble_rws_server_create E FfiConfig) (rws_create FfiConfig) ;;
    set_ServerHandle h ;;;
    if (h =? nullptr)%N then ret RuntimeError
    else
      Result <- ffi (dwebble_rws_server_start E h) (rws_start h) ;;
      (if Result =? DWEBBLE_WS_RESULT_OK then set_bIsRunning true else ret tt) ;;;
      ret (ConvertResult Result).

(** [Stop]. *)
Definition Stop : M EResult :=
  running <- get_bIsRunning ;;
  h <- get_ServerHandle ;;
  if negb running || (h =? nullptr)%N then ret NotRunning
  else
    Result <- ffi (dwebble_rws_server_stop E h) (rws_stop h) ;;
    set_bIsRunning false ;;;
    ret (ConvertResult Result).

(** The destructor [~FDwebbleWebSocketServerImpl]. *)
Definition Destructor : M unit :=
  h <- get_ServerHandle ;;
  if (h =? nullptr)%N then ret tt
  else
    Stop ;;;
    h' <- get_ServerHandle ;;
    ffi_void (dwebble_rws_server_destroy E h') (rws_destroy h') ;;;
    set_ServerHandle nullptr.

(** [IsRunning]. *)
Definition IsRunning : M bool := get_bIsRunning.

(** *** Queries *)

(** [GetPort]. *)
Definition GetPort : M Z :=
  h <- get_ServerHandle ;;
  if (h =? nullptr)%N then ret 0
  else
    p <- ffi (dwebble_rws_server_get_port E h) (fun _ => rws_get_port h) ;;
    ret (static_cast_int32 p).

(** [GetConnectionCount]. *)
Definition GetConnectionCount : M Z :=
  h <- get_ServerHandle ;;
  if (h =? nullptr)%N then ret 0
  else
    n <- ffi (dwebble_rws_server_get_connection_count E h)
             (fun _ => rws_get_connection_count h) ;;
    ret (static_cast_int32 n).

(** [Info]. *)
Definition Info : M FString :=
  h <- get_ServerHandle ;;
  if (h =? nullptr)%N then ret ""
  else
    InfoStr <- ffi (dwebble_rws_server_info E h) (rws_info h) ;;
    match InfoStr with
    | None => ret ""
    | Some str =>
        let Result := UTF8_TO_TCHAR str in
        ffi_void (dwebble_rws_free_string E str) (rws_free_string str) ;;;
        ret Result
    end.

(** *** Data operations *)

(** [Send]. *)
Definition Send (Id : N) (Bytes : TArray_uint8) : M EResult :=
  h <- get_ServerHandle ;;
  if (h =? nullptr)%N then ret InvalidHandle
  else
    Result <- ffi (dwebble_rws_server_send E h Id Bytes)
                  (fun _ => rws_send h Id Bytes) ;;
    ret (ConvertResult Result).

(** [SendText]. *)
Definition SendText (Id : N) (Text : FString) : M EResult :=
  h <- get_ServerHandle ;;
  if (h =? nullptr)%N then ret InvalidHandle
  else
    let TextAnsi := StringCast_ANSICHAR Text in
    Result <- ffi (dwebble_rws_server_send_text E h Id TextAnsi)
                  (fun _ => rws_send_text h Id TextAnsi) ;;
    ret (ConvertResult Result).

(** [Disconnect]. *)
Definition Disconnect (Id : N) : M EResult :=
  h <- get_ServerHandle ;;
  if (h =? nullptr)%N then ret InvalidHandle
  else
    Result <- ffi (dwebble_rws_server_disconnect E h Id)
                  (fun _ => rws_disconnect h Id) ;;
    ret (ConvertResult Result).

(** *** Event draining *)

(** The part of [PollEvent] after a successful dequeue: fill [OutEvent]
    from the engine's event. *)
Definition marshal (FfiEvent : DwebbleWSEvent) : FEvent :=
  {| EventType := ConvertEventType (event_type FfiEvent);
     ConnectionId := connection_id FfiEvent;
     Data :=
       match data FfiEvent with
       | Some buf =>
           if 0 <? data_len FfiEvent then Memcpy buf (data_len FfiEvent)
           else []
       | None => []
       end;
     ErrorMessage :=
       match error_message FfiEvent with
       | Some msg => UTF8_TO_TCHAR msg
       | None => ""
       end |}.

(** [PollEvent].  [OutEvent] is passed by reference: the function returns
    its [bool] together with the value [OutEvent] holds afterwards. *)
Definition PollEvent (OutEvent : FEvent) : M (bool * FEvent) :=
  h <- get_ServerHandle ;;
  if (h =? nullptr)%N then ret (false, OutEvent)
  else
    polled <- ffi (dwebble_rws_server_poll E h) (rws_poll h) ;;
    match polled with
    | None => ret (false, OutEvent)
    | Some FfiEvent => ret (true, marshal FfiEvent)
    end.

(** *** The host's use of one facade *)

(** A call the host makes on the interface [IServer]. *)
Inductive HostCall :=
| CallStart
| CallStop
| CallIsRunning
| CallGetPort
| CallGetConnectionCount
| CallInfo
| CallSend (Id : N) (Bytes : TArray_uint8)
| CallSendText (Id : N) (Text : FString)
| CallDisconnect (Id : N)
| CallPollEvent.

(** The world after one call, its return value dropped. *)
Definition step (w : World) (c : HostCall) : World :=
  match c with
  | CallStart => snd (Start w)
  | CallStop => snd (Stop w)
  | CallIsRunning => snd (IsRunning w)
  | CallGetPort => snd (GetPort w)
  | CallGetConnectionCount => snd (GetConnectionCount w)
  | CallInfo => snd (Info w)
  | CallSend Id Bytes => snd (Send Id Bytes w)
  | CallSendText Id Text => snd (SendText Id Text w)
  | CallDisconnect Id => snd (Disconnect Id w)
  | CallPollEvent => snd (PollEvent FEvent_default w)
  end.

(** The world a facade created from [InConfig] is in after the host made
    the calls [cs] on it, in order. *)
Definition after_calls (InConfig : Cfg) (e0 : engine_state E)
           (cs : list HostCall) : World :=
  fold_left step cs (Create InConfig e0).

(** A whole lifetime: construction, the host's calls, destruction. *)
Definition lifetime (InConfig : Cfg) (e0 : engine_state E)
           (cs : list HostCall) : World :=
  snd (Destructor (after_calls InConfig e0 cs)).


(** *** The worlds the lifecycle functions leave behind *)

(** The world [Start] leaves when the engine gave no handle. *)
Definition start_no_handle (w : World) (e1 : engine_state E) : World :=
  {| self := {| Config := Config (self w); ServerHandle := nullptr;
                bIsRunning := bIsRunning (self w) |};
     rws := e1;
     calls := calls w ++ [rws_create (MakeFfiConfig (Config (self w))) nullptr] |}.

(** The world [Start] leaves when the engine gave the handle [h] and
    answered [start] with [r]. *)
Definition started (w : World) (h : DwebbleWSServerHandle) (r : Z)
           (e2 : engine_state E) : World :=
  {| self := {| Config := Config (self w); ServerHandle := h;
                bIsRunning :=
                  if r =? DWEBBLE_WS_RESULT_OK then true
                  else bIsRunning (self w) |};
     rws := e2;
     calls := (calls w ++ [rws_create (MakeFfiConfig (Config (self w))) h])
                ++ [rws_start h r] |}.

(** The world [Stop] leaves when the engine answered [stop] with [r]. *)
Definition stopped (w : World) (r : Z) (e1 : engine_state E) : World :=
  {| self := {| Config := Config (self w);
                ServerHandle := ServerHandle (self w);
                bIsRunning := false |};
     rws := e1;
     calls := calls w ++ [rws_stop (ServerHandle (self w)) r] |}.

(** The same world around an object holding another configuration. *)
Definition with_Config (w : World) (c : Cfg) : World :=
  {| self := {| Config := c; ServerHandle := ServerHandle (self w);
                bIsRunning := bIsRunning (self w) |};
     rws := rws w; calls := calls w |}.

(** What holds of a facade made from [InConfig] at every moment between
    its construction and its destruction. *)
Record consistent (InConfig : Cfg) (w : World) : Prop := {
  running_has_handle :
    bIsRunning (self w) = true -> ServerHandle (self w) <> nullptr;
  nothing_destroyed : destroyed (calls w) = [];
  handle_is_last_create : ServerHandle (self w) = last_create (calls w);
  config_kept : Config (self w) = InConfig
}.

End Facade.

Arguments World E Cfg : clear implicits.
Arguments self {E Cfg} _.
Arguments rws {E Cfg} _.
Arguments calls {E Cfg} _.
Arguments Config {Cfg} _.
Arguments ServerHandle {Cfg} _.
Arguments bIsRunning {Cfg} _.
Arguments Create E {Cfg} InConfig e0.
Arguments Start {Hdr} E {Cfg} MakeFfiConfig _.
Arguments Stop {Hdr} E {Cfg} _.
Arguments Destructor {Hdr} E {Cfg} _.
Arguments IsRunning E {Cfg} _.
Arguments GetPort E {Cfg} _.
Arguments GetConnectionCount E {Cfg} _.
Arguments Info {UE} E {Cfg} _.
Arguments Send {Hdr} E {Cfg} Id Bytes _.
Arguments SendText {Hdr UE} E {Cfg} Id Text _.
Arguments Disconnect {Hdr} E {Cfg} Id _.
Arguments PollEvent {Hdr UE} E {Cfg} OutEvent _.
Arguments step {Hdr UE} E {Cfg} MakeFfiConfig w c.
Arguments after_calls {Hdr UE} E {Cfg} MakeFfiConfig InConfig e0 cs.
Arguments lifetime {Hdr UE} E {Cfg} MakeFfiConfig InConfig e0 cs.
Arguments start_no_handle E {Cfg} MakeFfiConfig w e1.
Arguments started {Hdr} E {Cfg} MakeFfiConfig w h r e2.
Arguments stopped E {Cfg} w r e1.
Arguments consistent {E Cfg} InConfig w.
Arguments with_Config {E Cfg} w c.

(** ** The correspondence of names between the two result enumerations *)

(** The host's result codes, in the order of [DwebbleWSResult_labels]: the
    code in position [i] is the one with the same name as the engine's label
    in position [i]. *)
Definition EResult_names : list EResult :=
  [ Ok; InvalidHandle; InvalidParam; AlreadyRunning; NotRunning;
    BindFailed; TlsError; RuntimeError; SendFailed; ConnectionClosed ].

(** The position of the first label equal to [v]. *)
Fixpoint index_of (v : Z) (l : list Z) : option nat :=
  match l with
  | [] => None
  | x :: l' => if v =? x then Some O else option_map S (index_of v l')
  end.

(** The host code named like the engine outcome [v], when [v] is one of the
    ten labels. *)
Definition same_named `{DwebbleRwsHeader} (v : Z) : option EResult :=
  match index_of v DwebbleWSResult_labels with
  | Some i => nth_error EResult_names i
  | None => None
  end.

(** ** The two host configuration types and their translation *)

(** Source/DwebbleWebSocket: [Subprotocols] is a [TArray<FString>]. *)
Module DwebbleWebSocket.

(** [struct FDwebbleWSServerConfig]. *)
Record FServerConfig := {
  Port : Z;                        (* int32 *)
  BindAddress : FString;
  Subprotocols : list FString;
  TlsCertPath : FString;
  TlsKeyPath : FString
}.

(** [FDwebbleWSServerConfig::Default()]. *)
Definition Default : FServerConfig :=
  {| Port := 0; BindAddress := "127.0.0.1"; Subprotocols := [];
     TlsCertPath := ""; TlsKeyPath := "" |}.

(** The block of [Start] under "Convert config to FFI struct". *)
Definition MakeFfiConfig {UE : UnrealCore} (Config : FServerConfig)
  : DwebbleWSServerConfig :=
  let BindAddressAnsi := StringCast_ANSICHAR (BindAddress Config) in
  let SubprotocolsJoined := FString_Join (Subprotocols Config) "," in
  let SubprotocolsAnsi := StringCast_ANSICHAR SubprotocolsJoined in
  let CertPathAnsi := StringCast_ANSICHAR (TlsCertPath Config) in
  let KeyPathAnsi := StringCast_ANSICHAR (TlsKeyPath Config) in
  {| port := static_cast_uint16 (Port Config);
     bind_address := Some BindAddressAnsi;
     subprotocols :=
       if TArray_IsEmpty (Subprotocols Config) then None
       else Some SubprotocolsAnsi;
     tls_cert_path :=
       if FString_IsEmpty (TlsCertPath Config) then None
       else Some CertPathAnsi;
     tls_key_path :=
       if FString_IsEmpty (TlsKeyPath Config) then None
       else Some KeyPathAnsi |}.

(** Exactly one of the certificate path and the key path is non-empty. *)
Definition half_tls (Config : FServerConfig) : bool :=
  xorb (FString_IsEmpty (TlsCertPath Config))
       (FString_IsEmpty (TlsKeyPath Config)).

Definition with_Port (Config : FServerConfig) (P : Z) : FServerConfig :=
  {| Port := P; BindAddress := BindAddress Config;
     Subprotocols := Subprotocols Config;
     TlsCertPath := TlsCertPath Config; TlsKeyPath := TlsKeyPath Config |}.

End DwebbleWebSocket.

(** Source/Dwebble: [Subprotocols] is one [FString], already comma-separated. *)
Module Dwebble.

(** [struct FDwebbleServerConfig]. *)
Record FDwebbleServerConfig := {
  Port : Z;                        (* int32 *)
  BindAddress : FString;
  Subprotocols : FString;
  TlsCertPath : FString;
  TlsKeyPath : FString
}.

(** [FDwebbleServerConfig::Default()]. *)
Definition Default : FDwebbleServerConfig :=
  {| Port := 0; BindAddress := "127.0.0.1"; Subprotocols := "";
     TlsCertPath := ""; TlsKeyPath := "" |}.

(** The block of [Start] under "Convert config to FFI struct". *)
Definition MakeFfiConfig {UE : UnrealCore} (Config : FDwebbleServerConfig)
  : DwebbleWSServerConfig :=
  let BindAddressAnsi := StringCast_ANSICHAR (BindAddress Config) in
  let SubprotocolsAnsi := StringCast_ANSICHAR (Subprotocols Config) in
  let CertPathAnsi := StringCast_ANSICHAR (TlsCertPath Config) in
  let KeyPathAnsi := StringCast_ANSICHAR (TlsKeyPath Config) in
  {| port := static_cast_uint16 (Port Config);
     bind_address := Some BindAddressAnsi;
     subprotocols :=
       if FString_IsEmpty (Subprotocols Config) then None
       else Some SubprotocolsAnsi;
     tls_cert_path :=
       if FString_IsEmpty (TlsCertPath Config) then None
       else Some CertPathAnsi;
     tls_key_path :=
       if FString_IsEmpty (TlsKeyPath Config) then None
       else Some KeyPathAnsi |}.

(** Exactly one of the certificate path and the key path is non-empty. *)
Definition half_tls (Config : FDwebbleServerConfig) : bool :=
  xorb (FString_IsEmpty (TlsCertPath Config))
       (FString_IsEmpty (TlsKeyPath Config)).

Definition with_Port (Config : FDwebbleServerConfig) (P : Z)
  : FDwebbleServerConfig :=
  {| Port := P; BindAddress := BindAddress Config;
     Subprotocols := Subprotocols Config;
     TlsCertPath := TlsCertPath Config; TlsKeyPath := TlsKeyPath Config |}.

End Dwebble.

(** Exactly one of the two TLS paths handed to the engine is null. *)
Definition one_tls_path_null (f : DwebbleWSServerConfig) : Prop :=
  (tls_cert_path f = None /\ tls_key_path f <> None) \/
  (tls_cert_path f <> None /\ tls_key_path f = None).

(** ** The correspondence of names between the two event-type enumerations *)

(** The five enumerators of [DwebbleWSEventType] that the facade knows by
    name, in the order of the [switch] of [ConvertEventType]. *)
Definition DwebbleWSEventType_labels `{DwebbleRwsHeader} : list Z :=
  [ DWEBBLE_WS_EVENT_TYPE_NONE; DWEBBLE_WS_EVENT_TYPE_CLIENT_CONNECTED;
    DWEBBLE_WS_EVENT_TYPE_CLIENT_DISCONNECTED;
    DWEBBLE_WS_EVENT_TYPE_MESSAGE_RECEIVED; DWEBBLE_WS_EVENT_TYPE_ERROR ].

(** The host's event types, in the same order. *)
Definition EEventType_names : list EEventType :=
  [ None_; ClientConnected; ClientDisconnected; MessageReceived; Error ].

(** ** More readings of a record of boundary calls *)

(** The handle a boundary call is made on, for the calls that take one. *)
Definition call_handle (c : EngineCall) : option DwebbleWSServerHandle :=
  match c with
  | rws_create _ _ | rws_free_string _ => None
  | rws_start h _ | rws_stop h _ | rws_destroy h | rws_get_port h
  | rws_get_connection_count h | rws_info h _ | rws_send h _ _
  | rws_send_text h _ _ | rws_disconnect h _ | rws_poll h _ => Some h
  end.

(** Reading a record call by call, with the handle that is current: a
    [create] makes its result current, a [destroy] leaves no handle current,
    and any call that takes a handle must be made on the current handle, which
    must not be null.  [None] once a call broke that. *)
Definition scan_step (st : option DwebbleWSServerHandle) (c : EngineCall)
  : option DwebbleWSServerHandle :=
  match st with
  | None => None
  | Some cur =>
      match c with
      | rws_create _ h => Some h
      | _ =>
          match call_handle c with
          | None => Some cur
          | Some h =>
              if ((h =? cur) && negb (h =? nullptr))%N then
                match c with rws_destroy _ => Some nullptr | _ => Some cur end
              else None
          end
      end
  end.

(** [Some h] when every call of the record was made on a live handle, [h]
    being the handle current at the end ([nullptr] when there is none). *)
Definition scan (tr : list EngineCall) : option DwebbleWSServerHandle :=
  fold_left scan_step tr (Some nullptr).

Arguments scan tr : simpl never.

(** The number of [start] calls the engine answered with OK. *)
Fixpoint count_start_ok `{DwebbleRwsHeader} (tr : list EngineCall) : nat :=
  match tr with
  | [] => O
  | rws_start _ r :: tr' =>
      if r =? DWEBBLE_WS_RESULT_OK then S (count_start_ok tr')
      else count_start_ok tr'
  | _ :: tr' => count_start_ok tr'
  end.

(** The number of [stop] calls. *)
Fixpoint count_stop (tr : list EngineCall) : nat :=
  match tr with
  | [] => O
  | rws_stop _ _ :: tr' => S (count_stop tr')
  | _ :: tr' => count_stop tr'
  end.

(** The strings [dwebble_rws_server_info] handed out, oldest first. *)
Fixpoint info_strings (tr : list EngineCall) : list string :=
  match tr with
  | [] => []
  | rws_info _ (Some s) :: tr' => s :: info_strings tr'
  | _ :: tr' => info_strings tr'
  end.

(** The configurations [dwebble_rws_server_create] was called with. *)
Fixpoint create_configs (tr : list EngineCall) : list DwebbleWSServerConfig :=
  match tr with
  | [] => []
  | rws_create f _ :: tr' => f :: create_configs tr'
  | _ :: tr' => create_configs tr'
  end.

(** The host call is [Start]. *)
Definition is_CallStart (c : HostCall) : bool :=
  match c with CallStart => true | _ => false end.

(** The host call is [Start] or [Stop]. *)
Definition is_lifecycle_call (c : HostCall) : bool :=
  match c with CallStart | CallStop => true | _ => false end.

(** What the record of calls of a facade made from [InConfig] looks like at
    every moment before its destruction. *)
Record orderly `{DwebbleRwsHeader} {E : Engine} {Cfg : Type}
       (MakeFfiConfig : Cfg -> DwebbleWSServerConfig) (InConfig : Cfg)
       (w : World E Cfg) : Prop := {
  orderly_config : Config (self w) = InConfig;
  orderly_scan : scan (calls w) = Some (ServerHandle (self w));
  orderly_balance :
    count_start_ok (calls w) =
    (count_stop (calls w) + if bIsRunning (self w) then 1 else 0)%nat;
  orderly_creates :
    Forall (fun f => f = MakeFfiConfig InConfig) (create_configs (calls w));
  orderly_strings : freed_strings (calls w) = info_strings (calls w)
}.

(** ** The plugin module (DwebbleWebSocket.cpp)

    [FDwebbleWebSocketModule] loads the engine's dynamic library when the
    module starts and unloads it when the module shuts down.  The handle of
    the library is the global [GDwebbleRwsDllHandle]. *)

(** The functions of the host platform the module calls.
    [FindPlugin_GetBaseDir] is
    [IPluginManager::Get().FindPlugin(TEXT("Dwebble"))->GetBaseDir()], the
    directory of the plugin this module belongs to. *)
Record Platform := {
  platform_state : Type;
  FindPlugin_GetBaseDir : platform_state -> FString;
  FPaths_Combine : FString -> FString -> FString;
  FPaths_FileExists : FString -> platform_state -> bool;
  FPlatformProcess_GetDllHandle : FString -> platform_state -> N * platform_state;
  FPlatformProcess_FreeDllHandle : N -> platform_state -> platform_state
}.

(** What the module does that can be seen from outside: library calls and
    log lines. *)
Inductive PlatformCall :=
| dll_get (path : FString) (ret : N)      (* FPlatformProcess::GetDllHandle *)
| dll_free (h : N)                        (* FPlatformProcess::FreeDllHandle *)
| log_loaded (path : FString)             (* Log: "Loaded dwebble_rws.dll from" *)
| log_load_failed (path : FString)        (* Error: "Failed to load dwebble_rws.dll from" *)
| log_not_found (path : FString)          (* Warning: "dwebble_rws.dll not found at" *)
| log_unloaded.                           (* Log: "Unloaded dwebble_rws.dll" *)

(** The library handles obtained: the non-null results of [GetDllHandle]. *)
Fixpoint dll_loaded (tr : list PlatformCall) : list N :=
  match tr with
  | [] => []
  | dll_get _ h :: tr' => if (h =? 0)%N then dll_loaded tr' else h :: dll_loaded tr'
  | _ :: tr' => dll_loaded tr'
  end.

(** The library handles passed to [FreeDllHandle]. *)
Fixpoint dll_freed (tr : list PlatformCall) : list N :=
  match tr with
  | [] => []
  | dll_free h :: tr' => h :: dll_freed tr'
  | _ :: tr' => dll_freed tr'
  end.

(** The number of [GetDllHandle] calls. *)
Fixpoint count_dll_get (tr : list PlatformCall) : nat :=
  match tr with
  | [] => O
  | dll_get _ _ :: tr' => S (count_dll_get tr')
  | _ :: tr' => count_dll_get tr'
  end.

Section PluginModule.

Variable P : Platform.

(** The global [GDwebbleRwsDllHandle], the platform's state, and what the
    module did so far. *)
Record ModuleWorld := {
  GDwebbleRwsDllHandle : N;
  platform : platform_state P;
  platform_calls : list PlatformCall
}.

(** The process before the module starts: the global is initialised to
    [nullptr]. *)
Definition module_initial (p0 : platform_state P) : ModuleWorld :=
  {| GDwebbleRwsDllHandle := 0%N; platform := p0; platform_calls := [] |}.

(** The path [StartupModule] looks for the library at. *)
Definition DllPath (w : ModuleWorld) : FString :=
  let PluginDir := FindPlugin_GetBaseDir P (platform w) in
  FPaths_Combine P PluginDir "Binaries/Win64/dwebble_rws.dll".

(** [FDwebbleWebSocketModule::StartupModule]. *)
Definition StartupModule (w : ModuleWorld) : ModuleWorld :=
  if FPaths_FileExists P (DllPath w) (platform w) then
    let (h, p') := FPlatformProcess_GetDllHandle P (DllPath w) (platform w) in
    {| GDwebbleRwsDllHandle := h; platform := p';
       platform_calls :=
         platform_calls w ++
         [ dll_get (DllPath w) h;
           if (h =? 0)%N then log_load_failed (DllPath w)
           else log_loaded (DllPath w) ] |}
  else
    {| GDwebbleRwsDllHandle := GDwebbleRwsDllHandle w; platform := platform w;
       platform_calls := platform_calls w ++ [log_not_found (DllPath w)] |}.

(** [FDwebbleWebSocketModule::ShutdownModule]. *)
Definition ShutdownModule (w : ModuleWorld) : ModuleWorld :=
  if (GDwebbleRwsDllHandle w =? 0)%N then w
  else
    {| GDwebbleRwsDllHandle := 0%N;
       platform := FPlatformProcess_FreeDllHandle P (GDwebbleRwsDllHandle w)
                                                  (platform w);
       platform_calls :=
         platform_calls w ++ [dll_free (GDwebbleRwsDllHandle w); log_unloaded] |}.

(** [n] rounds of starting the module and shutting it down. *)
Fixpoint module_rounds (n : nat) (w : ModuleWorld) : ModuleWorld :=
  match n with
  | O => w
  | S n' => module_rounds n' (ShutdownModule (StartupModule w))
  end.

End PluginModule.

Arguments GDwebbleRwsDllHandle {P} _.
Arguments platform {P} _.
Arguments platform_calls {P} _.

(** ** A test double for the engine

    An engine that hands out the handles 1, 2, 3, ... (or none, once
    [exhausted]), answers [start] and [stop] with the codes it was set up
    with, and serves events from a queue.  It gives the concrete runs below
    something to run against. *)
Module TestDouble.

Record state := {
  next_handle : N;
  exhausted : bool;
  start_result : Z;
  stop_result : Z;
  queue : list DwebbleWSEvent
}.

Definition set_next (s : state) (n : N) : state :=
  {| next_handle := n; exhausted := exhausted s;
     start_result := start_result s; stop_result := stop_result s;
     queue := queue s |}.

Definition set_queue (s : state) (q : list DwebbleWSEvent) : state :=
  {| next_handle := next_handle s; exhausted := exhausted s;
     start_result := start_result s; stop_result := stop_result s;
     queue := q |}.

Definition engine : Engine :=
  {| engine_state := state;
     dwebble_rws_server_create := fun _ s =>
       if exhausted s then (nullptr, s)
       else (next_handle s, set_next s (next_handle s + 1)%N);
     dwebble_rws_server_start := fun _ s => (start_result s, s);
     dwebble_rws_server_stop := fun _ s => (stop_result s, s);
     dwebble_rws_server_destroy := fun _ s => s;
     dwebble_rws_server_get_port := fun _ s => (8080, s);
     dwebble_rws_server_get_connection_count := fun _ s => (0, s);
     dwebble_rws_server_info := fun _ s => (Some "127.0.0.1:8080", s);
     dwebble_rws_free_string := fun _ s => s;
     dwebble_rws_server_send := fun _ _ _ s => (0, s);
     dwebble_rws_server_send_text := fun _ _ _ s => (0, s);
     dwebble_rws_server_disconnect := fun _ _ s => (0, s);
     dwebble_rws_server_poll := fun _ s =>
       match queue s with
       | [] => (None, s)
       | ev :: q => (Some ev, set_queue s q)
       end |}.

(** An engine that answers every [start] and [stop] with [code]. *)
Definition answering (code : Z) (q : list DwebbleWSEvent) : state :=
  {| next_handle := 1%N; exhausted := false;
     start_result := code; stop_result := code; queue := q |}.

(** The enumerators numbered like the host's own enumerations. *)
#[export] Instance header : DwebbleRwsHeader :=
  {| DWEBBLE_WS_RESULT_OK := 0;
     DWEBBLE_WS_RESULT_INVALID_HANDLE := 1;
     DWEBBLE_WS_RESULT_INVALID_PARAM := 2;
     DWEBBLE_WS_RESULT_ALREADY_RUNNING := 3;
     DWEBBLE_WS_RESULT_NOT_RUNNING := 4;
     DWEBBLE_WS_RESULT_BIND_FAILED := 5;
     DWEBBLE_WS_RESULT_TLS_ERROR := 6;
     DWEBBLE_WS_RESULT_RUNTIME_ERROR := 7;
     DWEBBLE_WS_RESULT_SEND_FAILED := 8;
     DWEBBLE_WS_RESULT_CONNECTION_CLOSED := 9;
     DWEBBLE_WS_EVENT_TYPE_NONE := 0;
     DWEBBLE_WS_EVENT_TYPE_CLIENT_CONNECTED := 1;
     DWEBBLE_WS_EVENT_TYPE_CLIENT_DISCONNECTED := 2;
     DWEBBLE_WS_EVENT_TYPE_MESSAGE_RECEIVED := 3;
     DWEBBLE_WS_EVENT_TYPE_ERROR := 4;
     DwebbleWSResult_distinct :=
     ltac:(repeat (constructor; [ simpl; intuition discriminate | ]);
           constructor);
     DwebbleWSEventType_distinct :=
     ltac:(repeat (constructor; [ simpl; intuition discriminate | ]);
           constructor) |}.

(** A configuration with a certificate and no key. *)
Definition cert_only : Dwebble.FDwebbleServerConfig :=
  {| Dwebble.Port := 0; Dwebble.BindAddress := "127.0.0.1";
     Dwebble.Subprotocols := ""; Dwebble.TlsCertPath := "cert.pem";
     Dwebble.TlsKeyPath := "" |}.

(** A configuration with two subprotocols and a port out of range. *)
Definition chat_config : DwebbleWebSocket.FServerConfig :=
  {| DwebbleWebSocket.Port := 65536;
     DwebbleWebSocket.BindAddress := "127.0.0.1";
     DwebbleWebSocket.Subprotocols := ["chat"; "superchat"];
     DwebbleWebSocket.TlsCertPath := ""; DwebbleWebSocket.TlsKeyPath := "" |}.

(** An error event of connection 5 that carries bytes and a message. *)
Definition error_event : DwebbleWSEvent :=
  {| event_type := 4; connection_id := 5%N;
     data := Some [Byte.x01; Byte.x02; Byte.x03]; data_len := 3;
     error_message := Some "boom" |}.

(** A message of connection 5 with no bytes. *)
Definition empty_message : DwebbleWSEvent :=
  {| event_type := 3; connection_id := 5%N;
     data := Some []; data_len := 0; error_message := None |}.

(** Text conversions that keep 7-bit text as it is. *)
#[export] Instance plain_text : UnrealCore :=
  {| StringCast_ANSICHAR := fun s => s; UTF8_TO_TCHAR := fun s => s |}.

End TestDouble.

(** ** A test double for the platform

    A file system given by the list of the paths that exist, and a loader
    that hands out the library handles 1, 2, 3, ... *)
Module PlatformDouble.

Record state := {
  files : list FString;
  next_dll : N
}.

Definition platform : Platform :=
  {| platform_state := state;
     FindPlugin_GetBaseDir := fun _ => "Plugins/Dwebble";
     FPaths_Combine := fun a b => (a ++ "/" ++ b)%string;
     FPaths_FileExists := fun path s => existsb (String.eqb path) (files s);
     FPlatformProcess_GetDllHandle := fun _ s =>
       (next_dll s, {| files := files s; next_dll := (next_dll s + 1)%N |});
     FPlatformProcess_FreeDllHandle := fun _ s => s |}.

(** A machine on which the library is installed. *)
Definition installed : state :=
  {| files := ["Plugins/Dwebble/Binaries/Win64/dwebble_rws.dll"];
     next_dll := 1%N |}.

(** A machine on which it is not. *)
Definition not_installed : state := {| files := []; next_dll := 1%N |}.

End PlatformDouble.

(** ** The result mapping *)

Lemma index_of_nth (l : list Z) :
  NoDup l -> forall i, (i < List.length l)%nat -> index_of (nth i l 0) l = Some i.
Proof.
  induction 1 as [| x l Hx Hnd IH]; intros i Hi; simpl in Hi; [ lia | ].
  destruct i as [| i]; simpl.
  - now rewrite Z.eqb_refl.
  - destruct (Z.eqb_spec (nth i l 0) x) as [e | _].
    + exfalso. apply Hx. rewrite <- e. apply nth_In. lia.
    + rewrite IH by lia. reflexivity.
Qed.

Lemma index_of_None (l : list Z) (v : Z) :
  ~ In v l -> index_of v l = None.
Proof.
  induction l as [| x l IH]; simpl; intros Hn; [ reflexivity | ].
  destruct (Z.eqb_spec v x) as [e | _].
  - exfalso. apply Hn. left. congruence.
  - rewrite IH; [ reflexivity | tauto ].
Qed.

Lemma index_of_Some (l : list Z) (v : Z) (i : nat) :
  index_of v l = Some i -> nth_error l i = Some v.
Proof.
  revert i. induction l as [| x l IH]; simpl; intros i H; [ discriminate | ].
  destruct (Z.eqb_spec v x) as [e | _].
  - injection H as <-. simpl. congruence.
  - destruct (index_of v l) as [k |]; simpl in H; [ | discriminate ].
    injection H as <-. simpl. now apply IH.
Qed.

Section ResultMapping.

Context {Hdr : DwebbleRwsHeader}.

Lemma DwebbleWSResult_labels_NoDup : NoDup DwebbleWSResult_labels.
Proof. exact DwebbleWSResult_distinct. Qed.

(** [ConvertResult] follows the position of its argument among the labels. *)
Lemma ConvertResult_index (v : Z) :
  ConvertResult v =
  match same_named v with Some r => r | None => RuntimeError end.
Proof.
  unfold ConvertResult, same_named, DwebbleWSResult_labels, index_of.
  repeat match goal with
  | |- context [ (v =? ?c) ] => destruct (Z.eqb_spec v c) as [_ | _]
  end; reflexivity.
Qed.

Lemma same_named_nth (i : nat) :
  (i < 10)%nat ->
  same_named (nth i DwebbleWSResult_labels 0) = nth_error EResult_names i.
Proof.
  intros Hi. unfold same_named.
  rewrite (index_of_nth _ DwebbleWSResult_labels_NoDup) by (simpl; lia).
  reflexivity.
Qed.

Lemma ConvertResult_nth (i : nat) :
  (i < 10)%nat ->
  ConvertResult (nth i DwebbleWSResult_labels 0) =
  nth i EResult_names RuntimeError.
Proof.
  intros Hi. rewrite ConvertResult_index, same_named_nth by exact Hi.
  do 10 (destruct i as [| i]; [ reflexivity | ]). lia.
Qed.

Lemma ConvertResult_unrecognized (v : Z) :
  ~ In v DwebbleWSResult_labels -> ConvertResult v = RuntimeError.
Proof.
  intros Hn. rewrite ConvertResult_index. unfold same_named.
  now rewrite index_of_None.
Qed.

(** Only the engine's own label is mapped to a code other than
    [RuntimeError]. *)
Lemma ConvertResult_inv (v : Z) (i : nat) :
  (i < 10)%nat -> i <> 7%nat ->
  ConvertResult v = nth i EResult_names RuntimeError ->
  v = nth i DwebbleWSResult_labels 0.
Proof.
  intros Hi H7. rewrite ConvertResult_index. unfold same_named.
  destruct (index_of v DwebbleWSResult_labels) as [k |] eqn:Hk.
  - apply index_of_Some in Hk.
    assert (Hlt : (k < 10)%nat)
      by (change 10%nat with (List.length DwebbleWSResult_labels);
          apply nth_error_Some; congruence).
    intros Heq.
    assert (k = i).
    { do 10 (destruct k as [| k];
             [ do 10 (destruct i as [| i];
                      [ first [ reflexivity | discriminate Heq
                              | exfalso; apply H7; reflexivity ] | ]); lia | ]).
      lia. }
    subst k. symmetry. now apply nth_error_nth.
  - intros Heq. exfalso.
    do 10 (destruct i as [| i];
           [ first [ discriminate Heq | apply H7; reflexivity ] | ]).
    lia.
Qed.

(** Two case labels of [ConvertEventType] are equal only if they are the
    same label. *)
Lemma event_labels_differ (i j : nat) :
  (i < 5)%nat -> (j < 5)%nat ->
  let l := [ DWEBBLE_WS_EVENT_TYPE_NONE; DWEBBLE_WS_EVENT_TYPE_CLIENT_CONNECTED;
             DWEBBLE_WS_EVENT_TYPE_CLIENT_DISCONNECTED;
             DWEBBLE_WS_EVENT_TYPE_MESSAGE_RECEIVED;
             DWEBBLE_WS_EVENT_TYPE_ERROR ] in
  nth i l 0 = nth j l 0 -> i = j.
Proof.
  intros Hi Hj l Heq.
  apply (proj1 (NoDup_nth l 0) DwebbleWSEventType_distinct); assumption.
Qed.

(** C6: the mapping from the engine's result codes to the facade's is
    total: each of the ten labels [DWEBBLE_WS_RESULT_*] is mapped to the
    facade code of the same name, every value that is none of the ten
    labels is mapped to [RuntimeError], and for every value whatsoever the
    mapping returns one of the ten facade codes. *)
Theorem ConvertResult_total :
  ConvertResult DWEBBLE_WS_RESULT_OK = Ok /\
  ConvertResult DWEBBLE_WS_RESULT_INVALID_HANDLE = InvalidHandle /\
  ConvertResult DWEBBLE_WS_RESULT_INVALID_PARAM = InvalidParam /\
  ConvertResult DWEBBLE_WS_RESULT_ALREADY_RUNNING = AlreadyRunning /\
  ConvertResult DWEBBLE_WS_RESULT_NOT_RUNNING = NotRunning /\
  ConvertResult DWEBBLE_WS_RESULT_BIND_FAILED = BindFailed /\
  ConvertResult DWEBBLE_WS_RESULT_TLS_ERROR = TlsError /\
  ConvertResult DWEBBLE_WS_RESULT_RUNTIME_ERROR = RuntimeError /\
  ConvertResult DWEBBLE_WS_RESULT_SEND_FAILED = SendFailed /\
  ConvertResult DWEBBLE_WS_RESULT_CONNECTION_CLOSED = ConnectionClosed /\
  (forall v : Z,
      ~ In v DwebbleWSResult_labels -> ConvertResult v = RuntimeError) /\
  (forall v : Z, In (ConvertResult v) EResult_names).
Proof.
  repeat split.
  - exact (ConvertResult_nth 0 ltac:(lia)).
  - exact (ConvertResult_nth 1 ltac:(lia)).
  - exact (ConvertResult_nth 2 ltac:(lia)).
  - exact (ConvertResult_nth 3 ltac:(lia)).
  - exact (ConvertResult_nth 4 ltac:(lia)).
  - exact (ConvertResult_nth 5 ltac:(lia)).
  - exact (ConvertResult_nth 6 ltac:(lia)).
  - exact (ConvertResult_nth 7 ltac:(lia)).
  - exact (ConvertResult_nth 8 ltac:(lia)).
  - exact (ConvertResult_nth 9 ltac:(lia)).
  - exact ConvertResult_unrecognized.
  - intros v. destruct (ConvertResult v); simpl; tauto.
Qed.

End ResultMapping.

(** ** Records of boundary calls *)

Lemma created_app (a b : list EngineCall) :
  created (a ++ b) = (created a ++ created b)%list.
Proof.
  induction a as [| c a IH]; [ reflexivity | ].
  destruct c as [cfg h | | | | | | | | | | | ]; simpl; try exact IH.
  destruct (h =? nullptr)%N; simpl; now rewrite IH.
Qed.

Lemma destroyed_app (a b : list EngineCall) :
  destroyed (a ++ b) = (destroyed a ++ destroyed b)%list.
Proof.
  induction a as [| c a IH]; [ reflexivity | ].
  destruct c; simpl; try exact IH. now rewrite IH.
Qed.

Lemma freed_strings_app (a b : list EngineCall) :
  freed_strings (a ++ b) = (freed_strings a ++ freed_strings b)%list.
Proof.
  induction a as [| c a IH]; [ reflexivity | ].
  destruct c; simpl; try exact IH. now rewrite IH.
Qed.

Lemma last_create_snoc (a : list EngineCall) (c : EngineCall) :
  last_create (a ++ [c]) =
  match c with rws_create _ h => h | _ => last_create a end.
Proof. unfold last_create. now rewrite fold_left_app. Qed.

Lemma create_returns_app (a b : list EngineCall) :
  create_returns (a ++ b) = (create_returns a ++ create_returns b)%list.
Proof.
  induction a as [| c a IH]; [ reflexivity | ].
  destruct c; simpl; try exact IH. now rewrite IH.
Qed.

(** The handles given out are the non-null results of [create]. *)
Lemma created_create_returns (tr : list EngineCall) :
  created tr = filter (fun h => negb (h =? nullptr)%N) (create_returns tr).
Proof.
  induction tr as [| c tr IH]; [ reflexivity | ].
  destruct c as [cfg h | | | | | | | | | | | ]; simpl; try exact IH.
  destruct (h =? nullptr)%N; simpl; now rewrite IH.
Qed.

(** The latest result of [create] is the last of all its results. *)
Lemma last_create_create_returns (tr : list EngineCall) :
  last_create tr = last (create_returns tr) nullptr.
Proof.
  induction tr as [| c tr IH] using rev_ind; [ reflexivity | ].
  rewrite last_create_snoc, create_returns_app.
  destruct c; simpl; rewrite ?app_nil_r; try exact IH.
  now rewrite last_last.
Qed.

(** A non-null last result of [create] is among the handles given out. *)
Lemma last_create_created (tr : list EngineCall) :
  last_create tr <> nullptr -> In (last_create tr) (created tr).
Proof.
  rewrite last_create_create_returns, created_create_returns.
  intros Hne. apply filter_In. split.
  - destruct (create_returns tr) as [| x l] eqn:Hl; [ now elim Hne | ].
    rewrite <- Hl in *.
    destruct (exists_last (l := create_returns tr)) as (l' & a & Hla);
      [ congruence | ].
    rewrite Hla in *. rewrite last_last. apply in_or_app. right. now left.
  - now apply negb_true_iff, N.eqb_neq.
Qed.

(** ** The member functions, one boundary call at a time *)

Ltac unfold_facade :=
  unfold Destructor, Start, Stop, IsRunning, GetPort, GetConnectionCount,
    Info, Send, SendText, Disconnect, PollEvent, bind, ret, ffi_void, ffi,
    get_Config, get_ServerHandle, get_bIsRunning, set_ServerHandle,
    set_bIsRunning.

Section Lifecycle.

Context {Hdr : DwebbleRwsHeader} {UE : UnrealCore}.
Variable E : Engine.
Variable Cfg : Type.
Variable MakeFfiConfig : Cfg -> DwebbleWSServerConfig.

Implicit Types (w : World E Cfg) (h : DwebbleWSServerHandle).

Lemma Start_running w :
  bIsRunning (self w) = true ->
  Start E MakeFfiConfig w = (AlreadyRunning, w).
Proof. intros Hr. unfold_facade. now rewrite Hr. Qed.

Lemma Start_create_failed w e1 :
  bIsRunning (self w) = false ->
  dwebble_rws_server_create E (MakeFfiConfig (Config (self w))) (rws w)
    = (nullptr, e1) ->
  Start E MakeFfiConfig w = (RuntimeError, start_no_handle E MakeFfiConfig w e1).
Proof.
  intros Hr Hc. unfold_facade. rewrite Hr, Hc. cbn. unfold start_no_handle. rewrite Hr. reflexivity.
Qed.

Lemma Start_created w h e1 r e2 :
  bIsRunning (self w) = false ->
  dwebble_rws_server_create E (MakeFfiConfig (Config (self w))) (rws w)
    = (h, e1) ->
  h <> nullptr ->
  dwebble_rws_server_start E h e1 = (r, e2) ->
  Start E MakeFfiConfig w = (ConvertResult r, started E MakeFfiConfig w h r e2).
Proof.
  intros Hr Hc Hh Hs. unfold_facade. rewrite Hr, Hc. cbn.
  destruct (N.eqb_spec h nullptr) as [-> | _]; [ congruence | ].
  cbn. rewrite Hs. unfold started.
  destruct (r =? DWEBBLE_WS_RESULT_OK); rewrite ?Hr; reflexivity.
Qed.

Lemma Stop_not_running w :
  bIsRunning (self w) = false \/ ServerHandle (self w) = nullptr ->
  Stop E w = (NotRunning, w).
Proof.
  intros H. unfold_facade.
  destruct (bIsRunning (self w)); cbn.
  - destruct H as [H | H]; [ discriminate | ]. now rewrite H.
  - reflexivity.
Qed.

Lemma Stop_running w r e1 :
  bIsRunning (self w) = true ->
  ServerHandle (self w) <> nullptr ->
  dwebble_rws_server_stop E (ServerHandle (self w)) (rws w) = (r, e1) ->
  Stop E w = (ConvertResult r, stopped E w r e1).
Proof.
  intros Hr Hh Hs. unfold_facade. rewrite Hr. cbn.
  destruct (N.eqb_spec (ServerHandle (self w)) nullptr) as [e | _];
    [ congruence | ].
  rewrite Hs. reflexivity.
Qed.

Lemma Destructor_no_handle w :
  ServerHandle (self w) = nullptr -> Destructor E w = (tt, w).
Proof. intros H. unfold_facade. now rewrite H. Qed.

(** With a handle, the destructor runs [Stop], then releases the handle
    and forgets it. *)
Lemma Destructor_with_handle w :
  ServerHandle (self w) <> nullptr ->
  let w1 := snd (Stop E w) in
  Destructor E w =
  (tt, {| self := {| Config := Config (self w1); ServerHandle := nullptr;
                     bIsRunning := bIsRunning (self w1) |};
          rws := dwebble_rws_server_destroy E (ServerHandle (self w1)) (rws w1);
          calls := calls w1 ++ [rws_destroy (ServerHandle (self w1))] |}).
Proof.
  intros Hh. cbv zeta. unfold Destructor at 1.
  unfold bind at 1, get_ServerHandle at 1.
  destruct (N.eqb_spec (ServerHandle (self w)) nullptr) as [e | _];
    [ congruence | ].
  unfold bind at 1. destruct (Stop E w) as [res w1]. reflexivity.
Qed.

Lemma Stop_keeps_handle w :
  ServerHandle (self (snd (Stop E w))) = ServerHandle (self w)
  /\ Config (self (snd (Stop E w))) = Config (self w).
Proof.
  unfold_facade.
  destruct (negb (bIsRunning (self w)) || (ServerHandle (self w) =? nullptr)%N);
    [ split; reflexivity | ].
  destruct (dwebble_rws_server_stop E (ServerHandle (self w)) (rws w)).
  split; reflexivity.
Qed.

(** *** What every call preserves *)

Lemma Create_consistent (InConfig : Cfg) (e0 : engine_state E) :
  consistent InConfig (Create E InConfig e0).
Proof. split; try reflexivity; cbn; congruence. Qed.

Ltac consistent_case Hw :=
  destruct Hw as [Hrun Hdes Hlast Hcfg];
  split; cbn;
  rewrite ?destroyed_app, ?last_create_snoc, ?Hdes, <- ?Hlast;
  cbn; auto.

Lemma step_consistent (InConfig : Cfg) w (c : HostCall) :
  consistent InConfig w -> consistent InConfig (step E MakeFfiConfig w c).
Proof.
  intros Hw. destruct c; unfold step; unfold_facade; cbn.
  - (* Start *)
    destruct (bIsRunning (self w)) eqn:Hr; cbn; [ exact Hw | ].
    destruct (dwebble_rws_server_create E _ (rws w)) as [h e1]. cbn.
    destruct (N.eqb_spec h nullptr) as [-> | Hh]; cbn.
    + consistent_case Hw. congruence.
    + destruct (dwebble_rws_server_start E h e1) as [r e2].
      destruct (r =? DWEBBLE_WS_RESULT_OK); consistent_case Hw; congruence.
  - (* Stop *)
    destruct (negb (bIsRunning (self w)) || (ServerHandle (self w) =? nullptr)%N);
      cbn; [ exact Hw | ].
    destruct (dwebble_rws_server_stop E _ (rws w)) as [r e1].
    consistent_case Hw. congruence.
  - exact Hw.
  - (* GetPort *)
    destruct (ServerHandle (self w) =? nullptr)%N; cbn; [ exact Hw | ].
    destruct (dwebble_rws_server_get_port E _ (rws w)) as [r e1].
    consistent_case Hw.
  - (* GetConnectionCount *)
    destruct (ServerHandle (self w) =? nullptr)%N; cbn; [ exact Hw | ].
    destruct (dwebble_rws_server_get_connection_count E _ (rws w)) as [r e1].
    consistent_case Hw.
  - (* Info *)
    destruct (ServerHandle (self w) =? nullptr)%N; cbn; [ exact Hw | ].
    destruct (dwebble_rws_server_info E _ (rws w)) as [[str |] e1];
      consistent_case Hw.
  - (* Send *)
    destruct (ServerHandle (self w) =? nullptr)%N; cbn; [ exact Hw | ].
    destruct (dwebble_rws_server_send E _ Id Bytes (rws w)) as [r e1].
    consistent_case Hw.
  - (* SendText *)
    destruct (ServerHandle (self w) =? nullptr)%N; cbn; [ exact Hw | ].
    destruct (dwebble_rws_server_send_text E _ Id _ (rws w)) as [r e1].
    consistent_case Hw.
  - (* Disconnect *)
    destruct (ServerHandle (self w) =? nullptr)%N; cbn; [ exact Hw | ].
    destruct (dwebble_rws_server_disconnect E _ Id (rws w)) as [r e1].
    consistent_case Hw.
  - (* PollEvent *)
    destruct (ServerHandle (self w) =? nullptr)%N; cbn; [ exact Hw | ].
    destruct (dwebble_rws_server_poll E _ (rws w)) as [[ev |] e1];
      consistent_case Hw.
Qed.

Lemma fold_step_consistent (InConfig : Cfg) (cs : list HostCall) w :
  consistent InConfig w ->
  consistent InConfig (fold_left (step E MakeFfiConfig) cs w).
Proof.
  revert w. induction cs as [| c cs IH]; intros w Hw; [ exact Hw | ].
  cbn. apply IH, step_consistent, Hw.
Qed.

Lemma after_calls_consistent (InConfig : Cfg) (e0 : engine_state E)
      (cs : list HostCall) :
  consistent InConfig (after_calls E MakeFfiConfig InConfig e0 cs).
Proof. apply fold_step_consistent, Create_consistent. Qed.

(** *** Handle lifetime *)

(** The destructor gives out no handle and asks for none. *)
Lemma Destructor_create_returns w :
  create_returns (calls (snd (Destructor E w))) = create_returns (calls w).
Proof.
  unfold_facade.
  destruct (ServerHandle (self w) =? nullptr)%N; cbn; [ reflexivity | ].
  destruct (negb (bIsRunning (self w)) || (ServerHandle (self w) =? nullptr)%N);
    cbn.
  - rewrite create_returns_app. cbn. now rewrite app_nil_r.
  - destruct (dwebble_rws_server_stop E (ServerHandle (self w)) (rws w)) as [r e1]. cbn.
    rewrite !create_returns_app. cbn. now rewrite !app_nil_r.
Qed.

(** What the destructor releases: the handle held, if any. *)
Lemma Destructor_destroyed w :
  destroyed (calls w) = [] ->
  destroyed (calls (snd (Destructor E w))) =
  if (ServerHandle (self w) =? nullptr)%N then []
  else [ServerHandle (self w)].
Proof.
  intros Hdes. unfold_facade.
  destruct (ServerHandle (self w) =? nullptr)%N; cbn; [ exact Hdes | ].
  destruct (negb (bIsRunning (self w)) || (ServerHandle (self w) =? nullptr)%N);
    cbn.
  - rewrite destroyed_app, Hdes. reflexivity.
  - destruct (dwebble_rws_server_stop E (ServerHandle (self w)) (rws w)) as [r e1]. cbn.
    rewrite !destroyed_app, Hdes. reflexivity.
Qed.

Lemma Destructor_forgets_handle w :
  ServerHandle (self (snd (Destructor E w))) = nullptr.
Proof.
  unfold_facade.
  destruct (N.eqb_spec (ServerHandle (self w)) nullptr) as [e | _]; cbn;
    [ exact e | ].
  destruct (negb (bIsRunning (self w)) || (ServerHandle (self w) =? nullptr)%N);
    cbn; [ reflexivity | ].
  destruct (dwebble_rws_server_stop E (ServerHandle (self w)) (rws w)) as [r e1]. reflexivity.
Qed.

(** The destructor releases the handle held, if any, and nothing else. *)
Lemma Destructor_releases_held w :
  destroyed (calls (snd (Destructor E w))) =
  (destroyed (calls w) ++
   if (ServerHandle (self w) =? nullptr)%N then []
   else [ServerHandle (self w)])%list.
Proof.
  unfold_facade.
  destruct (ServerHandle (self w) =? nullptr)%N; cbn;
    [ now rewrite app_nil_r | ].
  destruct (negb (bIsRunning (self w)) || (ServerHandle (self w) =? nullptr)%N);
    cbn.
  - now rewrite destroyed_app.
  - destruct (dwebble_rws_server_stop E (ServerHandle (self w)) (rws w)) as [r e1]. cbn.
    now rewrite !destroyed_app, app_nil_r.
Qed.

(** C1, as the code has it by design: the constructor allocates nothing (a
    new facade holds no handle and has made no boundary call; the handle
    comes from [Start]).  Whatever calls the host makes before destruction,
    the handle the facade holds is the one the engine's latest [create]
    returned; the destructor releases the handle held, once, when there is
    one, and releases nothing else; over the whole lifetime no handle is
    released more often than the engine gave it out, so none is released
    twice; and the destroyed facade holds no handle.  When the engine's
    [create] was called at most once in the lifetime, the handles released
    are exactly the handles given out and nothing is left unreleased.  What
    becomes of an earlier handle when [create] is called again is not part of
    the statement. *)
Theorem handle_lifetime (InConfig : Cfg) (e0 : engine_state E)
        (cs : list HostCall) :
  let w0 := Create E InConfig e0 in
  let w := after_calls E MakeFfiConfig InConfig e0 cs in
  let w' := lifetime E MakeFfiConfig InConfig e0 cs in
  (ServerHandle (self w0) = nullptr /\ calls w0 = []) /\
  ServerHandle (self w) = last_create (calls w) /\
  destroyed (calls w') =
    (destroyed (calls w) ++
     if (ServerHandle (self w) =? nullptr)%N then []
     else [ServerHandle (self w)])%list /\
  (forall h,
      (count_occ N.eq_dec (destroyed (calls w')) h <=
       count_occ N.eq_dec (created (calls w')) h)%nat) /\
  ServerHandle (self w') = nullptr /\
  ((List.length (create_returns (calls w')) <= 1)%nat ->
   destroyed (calls w') = created (calls w') /\ leaked (calls w') = []).
Proof.
  intros w0 w w'.
  pose proof (after_calls_consistent InConfig e0 cs) as Hw. fold w in Hw.
  destruct Hw as [Hrun Hdes Hlast Hcfg].
  assert (Hd : destroyed (calls w') =
               if (ServerHandle (self w) =? nullptr)%N then []
               else [ServerHandle (self w)])
    by (apply Destructor_destroyed, Hdes).
  assert (Hcr : created (calls w') = created (calls w)).
  { unfold w', lifetime. fold w.
    now rewrite !created_create_returns, Destructor_create_returns. }
  split; [ split; reflexivity | ].
  split; [ exact Hlast | ].
  split; [ apply Destructor_releases_held | ].
  split; [ | split; [ apply Destructor_forgets_handle | ] ].
  - intros h. rewrite Hd, Hcr.
    destruct (N.eqb_spec (ServerHandle (self w)) nullptr) as [e | ne];
      [ cbn; lia | ].
    cbn. destruct (N.eq_dec (ServerHandle (self w)) h) as [<- | _]; [ | lia ].
    apply (proj1 (count_occ_In N.eq_dec _ _)).
    rewrite Hlast in *. now apply last_create_created.
  - intros Hone. unfold leaked. rewrite Hd, Hcr, created_create_returns.
    unfold w', lifetime in Hone. fold w in Hone.
    rewrite Destructor_create_returns in Hone.
    rewrite Hlast, last_create_create_returns.
    destruct (create_returns (calls w)) as [| h l]; [ now split | ].
    destruct l as [| h' l]; [ | simpl in Hone; lia ].
    simpl. destruct (N.eqb_spec h nullptr) as [e | ne]; simpl;
      [ now split | ].
    now rewrite N.eqb_refl.
Qed.

(** *** Start and Stop *)

(** C2: [Start] on a running facade returns [AlreadyRunning] and leaves
    the object, the engine and the record of calls as they were (so no
    second handle is created).  On a facade that is not running and gets a
    handle, [Start] returns the image of the engine's [start] outcome: [Ok]
    with the running flag set when the engine reports OK; for any other
    outcome the code of the same name (never [Ok]), with the running flag
    still false.  When the engine gives no handle the result is
    [RuntimeError] and the flag stays false. *)
Theorem Start_contract w :
  (bIsRunning (self w) = true ->
   Start E MakeFfiConfig w = (AlreadyRunning, w)) /\
  (bIsRunning (self w) = false ->
   forall h e1,
     dwebble_rws_server_create E (MakeFfiConfig (Config (self w))) (rws w)
       = (h, e1) ->
     let res := fst (Start E MakeFfiConfig w) in
     let w' := snd (Start E MakeFfiConfig w) in
     (h = nullptr -> res = RuntimeError /\ bIsRunning (self w') = false) /\
     (h <> nullptr ->
      forall r e2,
        dwebble_rws_server_start E h e1 = (r, e2) ->
        res = ConvertResult r /\
        (r = DWEBBLE_WS_RESULT_OK ->
         res = Ok /\ bIsRunning (self w') = true) /\
        (r <> DWEBBLE_WS_RESULT_OK ->
         res <> Ok /\ bIsRunning (self w') = false /\
         forall x, same_named r = Some x -> res = x))).
Proof.
  split; [ apply Start_running | ].
  intros Hr h e1 Hc res w'. split.
  - intros ->. unfold res, w'. rewrite (Start_create_failed w e1 Hr Hc).
    split; [ reflexivity | exact Hr ].
  - intros Hh r e2 Hs. unfold res, w'.
    rewrite (Start_created w h e1 r e2 Hr Hc Hh Hs). cbn.
    split; [ reflexivity | split ].
    + intros ->. rewrite Z.eqb_refl.
      split; [ exact (ConvertResult_nth 0 ltac:(lia)) | reflexivity ].
    + intros Hne. repeat split.
      * intros Hok. apply Hne.
        exact (ConvertResult_inv r 0 ltac:(lia) ltac:(lia) Hok).
      * destruct (Z.eqb_spec r DWEBBLE_WS_RESULT_OK); [ contradiction | exact Hr ].
      * intros x Hx. now rewrite ConvertResult_index, Hx.
Qed.

(** C3: [Stop] returns [NotRunning], changing nothing and calling
    nothing, whenever the facade is not running or holds no handle; in
    particular right after [Create].  Otherwise it calls the engine's [stop]
    once, clears the running flag whatever the engine answered, keeps the
    handle, and returns the image of the engine's answer. *)
Theorem Stop_contract w :
  (bIsRunning (self w) = false \/ ServerHandle (self w) = nullptr ->
   Stop E w = (NotRunning, w)) /\
  (forall (InConfig : Cfg) (e0 : engine_state E),
      Stop E (Create E InConfig e0) = (NotRunning, Create E InConfig e0) /\
      fst (IsRunning E (Create E InConfig e0)) = false) /\
  (bIsRunning (self w) = true -> ServerHandle (self w) <> nullptr ->
   forall r e1,
     dwebble_rws_server_stop E (ServerHandle (self w)) (rws w) = (r, e1) ->
     let w' := snd (Stop E w) in
     fst (Stop E w) = ConvertResult r /\
     bIsRunning (self w') = false /\
     ServerHandle (self w') = ServerHandle (self w) /\
     rws w' = e1 /\
     calls w' = (calls w ++ [rws_stop (ServerHandle (self w)) r])%list).
Proof.
  split; [ apply Stop_not_running | split ].
  - intros InConfig e0. split; [ | reflexivity ].
    apply Stop_not_running. now left.
  - intros Hr Hh r e1 Hs w'. unfold w'.
    rewrite (Stop_running w r e1 Hr Hh Hs). cbn. repeat split.
Qed.

(** *** A facade without a handle *)

(** C7: a facade that holds no handle, at any moment of its use, is not
    running; [Send], [SendText] and [Disconnect] answer [InvalidHandle],
    [GetPort] and [GetConnectionCount] answer 0, [Info] answers the empty
    string and [PollEvent] answers false leaving the out-parameter alone;
    none of them, nor the destructor, calls the engine or changes anything. *)
Theorem no_handle_facade (InConfig : Cfg) (e0 : engine_state E)
        (cs : list HostCall) :
  let w := after_calls E MakeFfiConfig InConfig e0 cs in
  ServerHandle (self w) = nullptr ->
  IsRunning E w = (false, w) /\
  (forall Id Bytes, Send E Id Bytes w = (InvalidHandle, w)) /\
  (forall Id Text, SendText E Id Text w = (InvalidHandle, w)) /\
  (forall Id, Disconnect E Id w = (InvalidHandle, w)) /\
  GetPort E w = (0, w) /\
  GetConnectionCount E w = (0, w) /\
  Info E w = ("", w) /\
  (forall OutEvent, PollEvent E OutEvent w = ((false, OutEvent), w)) /\
  Destructor E w = (tt, w).
Proof.
  intros w Hh.
  pose proof (after_calls_consistent InConfig e0 cs) as Hw. fold w in Hw.
  destruct Hw as [Hrun _ _ _].
  assert (Hr : bIsRunning (self w) = false)
    by (destruct (bIsRunning (self w)); [ exfalso; now apply Hrun | reflexivity ]).
  repeat split; intros; unfold_facade; rewrite ?Hh, ?Hr; reflexivity.
Qed.

(** *** What [Start] hands to the engine *)

Lemma Start_keeps_Config w :
  Config (self (snd (Start E MakeFfiConfig w))) = Config (self w).
Proof.
  unfold_facade. destruct (bIsRunning (self w)); cbn; [ reflexivity | ].
  destruct (dwebble_rws_server_create E _ (rws w)) as [h e1]. cbn.
  destruct (h =? nullptr)%N; cbn; [ reflexivity | ].
  destruct (dwebble_rws_server_start E h e1) as [r e2].
  destruct (r =? DWEBBLE_WS_RESULT_OK); reflexivity.
Qed.

(** A facade that is not running always reaches the engine: the first
    thing [Start] does is [create], with the translated configuration. *)
Lemma Start_reaches_engine w :
  bIsRunning (self w) = false ->
  exists h tl,
    calls (snd (Start E MakeFfiConfig w)) =
    (calls w ++ rws_create (MakeFfiConfig (Config (self w))) h :: tl)%list
    /\ h = fst (dwebble_rws_server_create E (MakeFfiConfig (Config (self w)))
                                          (rws w)).
Proof.
  intros Hr. unfold_facade. rewrite Hr.
  destruct (dwebble_rws_server_create E _ (rws w)) as [h e1]. cbn.
  destruct (h =? nullptr)%N; cbn.
  - exists h, []. now split.
  - destruct (dwebble_rws_server_start E h e1) as [r e2].
    exists h, [rws_start h r].
    destruct (r =? DWEBBLE_WS_RESULT_OK); cbn; rewrite <- app_assoc; now split.
Qed.

(** The result of [Start] in terms of what the engine answers. *)
Lemma Start_result w :
  bIsRunning (self w) = false ->
  let cr := dwebble_rws_server_create E (MakeFfiConfig (Config (self w)))
                                      (rws w) in
  fst (Start E MakeFfiConfig w) =
  if (fst cr =? nullptr)%N then RuntimeError
  else ConvertResult (fst (dwebble_rws_server_start E (fst cr) (snd cr))).
Proof.
  intros Hr. unfold_facade. rewrite Hr.
  destruct (dwebble_rws_server_create E _ (rws w)) as [h e1]. cbn.
  destruct (h =? nullptr)%N; cbn; [ reflexivity | ].
  destruct (dwebble_rws_server_start E h e1) as [r e2].
  destruct (r =? DWEBBLE_WS_RESULT_OK); reflexivity.
Qed.

(** [Start] answers one of the codes other than [RuntimeError] and
    [AlreadyRunning] only when the engine's [start] answered the label of
    that name. *)
Lemma Start_code_from_engine w (i : nat) :
  (i < 10)%nat -> i <> 7%nat -> i <> 3%nat ->
  fst (Start E MakeFfiConfig w) = nth i EResult_names RuntimeError ->
  let cr := dwebble_rws_server_create E (MakeFfiConfig (Config (self w)))
                                      (rws w) in
  bIsRunning (self w) = false /\ fst cr <> nullptr /\
  fst (dwebble_rws_server_start E (fst cr) (snd cr)) =
  nth i DwebbleWSResult_labels 0.
Proof.
  intros Hi H7 H3 Hres cr.
  destruct (bIsRunning (self w)) eqn:Hr.
  - rewrite (Start_running w Hr) in Hres. cbn in Hres. exfalso.
    do 10 (destruct i as [| i];
           [ first [ discriminate Hres | now apply H3 ] | ]).
    lia.
  - rewrite (Start_result w Hr) in Hres. fold cr in Hres.
    destruct (N.eqb_spec (fst cr) nullptr) as [e | ne].
    + exfalso.
      do 10 (destruct i as [| i];
             [ first [ discriminate Hres | now apply H7 ] | ]).
      lia.
    + repeat split; try assumption.
      now apply ConvertResult_inv.
Qed.

(** [Start] sees the host configuration only through its translation. *)
Lemma Start_through_translation w (c : Cfg) :
  MakeFfiConfig c = MakeFfiConfig (Config (self w)) ->
  Start E MakeFfiConfig (with_Config w c) =
  (fst (Start E MakeFfiConfig w),
   with_Config (snd (Start E MakeFfiConfig w)) c).
Proof.
  intros Heq. unfold_facade. unfold with_Config. cbn.
  destruct (bIsRunning (self w)) eqn:Hr; cbn; rewrite ?Hr; [ reflexivity | ].
  rewrite Heq.
  destruct (dwebble_rws_server_create E _ (rws w)) as [h e1]. cbn.
  destruct (h =? nullptr)%N; cbn; rewrite ?Hr; [ reflexivity | ].
  destruct (dwebble_rws_server_start E h e1) as [r e2].
  destruct (r =? DWEBBLE_WS_RESULT_OK); cbn; rewrite ?Hr; reflexivity.
Qed.

(** *** Event draining *)

Lemma ConvertEventType_message :
  ConvertEventType DWEBBLE_WS_EVENT_TYPE_MESSAGE_RECEIVED = MessageReceived.
Proof.
  unfold ConvertEventType.
  destruct (Z.eqb_spec DWEBBLE_WS_EVENT_TYPE_MESSAGE_RECEIVED
                       DWEBBLE_WS_EVENT_TYPE_NONE) as [e | _];
    [ apply (event_labels_differ 3 0) in e; [ discriminate | lia | lia ] | ].
  destruct (Z.eqb_spec DWEBBLE_WS_EVENT_TYPE_MESSAGE_RECEIVED
                       DWEBBLE_WS_EVENT_TYPE_CLIENT_CONNECTED) as [e | _];
    [ apply (event_labels_differ 3 1) in e; [ discriminate | lia | lia ] | ].
  destruct (Z.eqb_spec DWEBBLE_WS_EVENT_TYPE_MESSAGE_RECEIVED
                       DWEBBLE_WS_EVENT_TYPE_CLIENT_DISCONNECTED) as [e | _];
    [ apply (event_labels_differ 3 2) in e; [ discriminate | lia | lia ] | ].
  now rewrite Z.eqb_refl.
Qed.

(** [PollEvent] with a handle, in terms of what the engine's [poll]
    answers. *)
Lemma PollEvent_with_handle w (OutEvent : FEvent) :
  ServerHandle (self w) <> nullptr ->
  let pr := dwebble_rws_server_poll E (ServerHandle (self w)) (rws w) in
  PollEvent E OutEvent w =
  (match fst pr with
   | Some ev => (true, marshal ev)
   | None => (false, OutEvent)
   end,
   {| self := self w; rws := snd pr;
      calls := calls w ++ [rws_poll (ServerHandle (self w)) (fst pr)] |}).
Proof.
  intros Hh. cbv zeta. unfold_facade.
  destruct (N.eqb_spec (ServerHandle (self w)) nullptr) as [e | _];
    [ contradiction | ].
  destruct (dwebble_rws_server_poll E _ (rws w)) as [[ev |] e1]; reflexivity.
Qed.

Lemma PollEvent_no_handle w (OutEvent : FEvent) :
  ServerHandle (self w) = nullptr ->
  PollEvent E OutEvent w = ((false, OutEvent), w).
Proof. intros Hh. unfold_facade. now rewrite Hh. Qed.

(** [PollEvent] hands nothing back to the engine: the only boundary call
    it makes is [poll]. *)
Lemma PollEvent_frees_nothing w (OutEvent : FEvent) :
  freed_strings (calls (snd (PollEvent E OutEvent w))) =
  freed_strings (calls w).
Proof.
  destruct (N.eqb_spec (ServerHandle (self w)) nullptr) as [e | ne].
  - now rewrite PollEvent_no_handle.
  - rewrite PollEvent_with_handle by exact ne. cbn.
    rewrite freed_strings_app. cbn. now rewrite app_nil_r.
Qed.

(** C8: a dequeued [MessageReceived] event of length zero is an event:
    [PollEvent] returns true with the event type [MessageReceived], the
    connection id of the engine's event and an empty payload.  [PollEvent]
    returns false exactly when the facade holds no handle or the engine's
    [poll] reported nothing, and then leaves the out-parameter alone.  It
    returns after at most one boundary call, the [poll] itself. *)
Theorem PollEvent_empty_message_is_an_event w (OutEvent : FEvent) :
  let h := ServerHandle (self w) in
  let res := fst (PollEvent E OutEvent w) in
  let w' := snd (PollEvent E OutEvent w) in
  (forall ev e1,
      h <> nullptr ->
      dwebble_rws_server_poll E h (rws w) = (Some ev, e1) ->
      event_type ev = DWEBBLE_WS_EVENT_TYPE_MESSAGE_RECEIVED ->
      data_len ev = 0 ->
      fst res = true /\ EventType (snd res) = MessageReceived /\
      ConnectionId (snd res) = connection_id ev /\ Data (snd res) = []) /\
  (fst res = false <->
   h = nullptr \/ fst (dwebble_rws_server_poll E h (rws w)) = None) /\
  (fst res = false -> snd res = OutEvent) /\
  (calls w' = calls w \/
   calls w' = (calls w ++ [rws_poll h (fst (dwebble_rws_server_poll E h (rws w)))])%list).
Proof.
  intros h res w'. unfold res, w'.
  destruct (N.eqb_spec h nullptr) as [e | ne].
  - rewrite (PollEvent_no_handle w OutEvent e). cbn.
    repeat split; auto; intros; contradiction.
  - rewrite (PollEvent_with_handle w OutEvent ne). fold h. cbn.
    split; [ | split; [ | split ] ].
    + intros ev e1 _ Hp Hty Hlen. rewrite Hp. cbn.
      rewrite Hty, Hlen, ConvertEventType_message. cbn.
      repeat split. now destruct (data ev).
    + destruct (fst (dwebble_rws_server_poll E h (rws w))); cbn; split;
        auto; try discriminate.
      intros [Hn | Hn]; [ contradiction | discriminate ].
    + destruct (fst (dwebble_rws_server_poll E h (rws w))); cbn;
        [ discriminate | reflexivity ].
    + now right.
Qed.

End Lifecycle.

(** ** Configuration translation *)

Lemma FString_IsEmpty_true (s : FString) : FString_IsEmpty s = true <-> s = "".
Proof. destruct s; simpl; split; congruence. Qed.

Lemma FString_IsEmpty_false (s : FString) : FString_IsEmpty s = false <-> s <> "".
Proof. destruct s; simpl; split; congruence. Qed.

(** [FString::Join] is the standard library's join of a list of strings
    with a separator. *)
Lemma FString_Join_concat (Parts : list FString) (Separator : FString) :
  FString_Join Parts Separator = String.concat Separator Parts.
Proof.
  induction Parts as [| p rest IH]; [ reflexivity | ].
  destruct rest as [| q rest]; [ reflexivity | ].
  change (p ++ Separator ++ FString_Join (q :: rest) Separator =
          p ++ Separator ++ String.concat Separator (q :: rest))%string.
  now rewrite IH.
Qed.

Lemma string_app_empty (s : string) : (s ++ "")%string = s.
Proof. induction s as [| c s IH]; cbn; [ reflexivity | now rewrite IH ]. Qed.

Lemma split_at_commas_nonempty (s : string) : split_at_commas s <> [].
Proof.
  induction s as [| c s IH]; cbn; [ discriminate | ].
  destruct (Ascii.eqb c ","); [ discriminate | ].
  destruct (split_at_commas s); [ contradiction | discriminate ].
Qed.

(** A comma-free prefix stays in front of the first piece of the rest. *)
Lemma split_at_commas_prefix (a rest piece : string) (pieces : list string) :
  comma_free a ->
  split_at_commas rest = piece :: pieces ->
  split_at_commas (a ++ rest) = (a ++ piece)%string :: pieces.
Proof.
  intros Ha Hr. induction a as [| c a IH]; cbn; [ exact Hr | ].
  destruct Ha as [Hc Ha].
  rewrite (proj2 (Ascii.eqb_neq c ",") Hc), (IH Ha). reflexivity.
Qed.

(** Splitting the join at its commas gives the list back, when the list is
    not empty and no element contains a comma. *)
Lemma split_at_commas_concat (l : list string) :
  l <> [] -> Forall comma_free l ->
  split_at_commas (String.concat "," l) = l.
Proof.
  induction l as [| a l IH]; intros Hne Hcf; [ contradiction | ].
  inversion Hcf as [| ? ? Ha Hl]; subst.
  destruct l as [| b l].
  - cbn [String.concat].
    rewrite <- (string_app_empty a) at 1.
    rewrite (split_at_commas_prefix a "" "" [] Ha eq_refl).
    now rewrite string_app_empty.
  - change (String.concat "," (a :: b :: l))
      with (a ++ "," ++ String.concat "," (b :: l))%string.
    rewrite (split_at_commas_prefix
               a ("," ++ String.concat "," (b :: l)) "" (b :: l) Ha).
    + now rewrite string_app_empty.
    + change (split_at_commas ("," ++ String.concat "," (b :: l)))
        with ("" :: split_at_commas (String.concat "," (b :: l))).
      f_equal. apply IH; [ discriminate | assumption ].
Qed.

Section Translation.

Context {Hdr : DwebbleRwsHeader} {UE : UnrealCore}.
Variable E : Engine.

(** C9: an empty subprotocol list (or, in the variant that keeps them in
    one string, an empty subprotocol string), an empty certificate path and
    an empty key path each reach the engine as a null pointer; a non-empty
    list reaches it as one string, its elements in order with one comma
    between neighbours (the standard library's [String.concat] with ","), so
    that splitting the string at its commas gives the list back when no
    element contains a comma; and a non-empty path reaches it as that path.  [Start] hands exactly this
    translation to the engine's [create], and neither [Start] nor any other
    call changes the configuration the facade was made from. *)
Theorem config_translation :
  (forall c : DwebbleWebSocket.FServerConfig,
      let f := DwebbleWebSocket.MakeFfiConfig c in
      (DwebbleWebSocket.Subprotocols c = [] -> subprotocols f = None) /\
      (DwebbleWebSocket.Subprotocols c <> [] ->
       subprotocols f =
       Some (StringCast_ANSICHAR
               (String.concat "," (DwebbleWebSocket.Subprotocols c))) /\
       (Forall comma_free (DwebbleWebSocket.Subprotocols c) ->
        split_at_commas (String.concat "," (DwebbleWebSocket.Subprotocols c))
        = DwebbleWebSocket.Subprotocols c)) /\
      (DwebbleWebSocket.TlsCertPath c = "" -> tls_cert_path f = None) /\
      (DwebbleWebSocket.TlsCertPath c <> "" ->
       tls_cert_path f =
       Some (StringCast_ANSICHAR (DwebbleWebSocket.TlsCertPath c))) /\
      (DwebbleWebSocket.TlsKeyPath c = "" -> tls_key_path f = None) /\
      (DwebbleWebSocket.TlsKeyPath c <> "" ->
       tls_key_path f =
       Some (StringCast_ANSICHAR (DwebbleWebSocket.TlsKeyPath c)))) /\
  (forall c : Dwebble.FDwebbleServerConfig,
      let f := Dwebble.MakeFfiConfig c in
      (Dwebble.Subprotocols c = "" -> subprotocols f = None) /\
      (Dwebble.Subprotocols c <> "" ->
       subprotocols f = Some (StringCast_ANSICHAR (Dwebble.Subprotocols c))) /\
      (Dwebble.TlsCertPath c = "" -> tls_cert_path f = None) /\
      (Dwebble.TlsCertPath c <> "" ->
       tls_cert_path f = Some (StringCast_ANSICHAR (Dwebble.TlsCertPath c))) /\
      (Dwebble.TlsKeyPath c = "" -> tls_key_path f = None) /\
      (Dwebble.TlsKeyPath c <> "" ->
       tls_key_path f = Some (StringCast_ANSICHAR (Dwebble.TlsKeyPath c)))) /\
  (forall (Cfg : Type) (MakeFfiConfig : Cfg -> DwebbleWSServerConfig)
          (w : World E Cfg),
      Config (self (snd (Start E MakeFfiConfig w))) = Config (self w) /\
      (bIsRunning (self w) = false ->
       exists h tl,
         calls (snd (Start E MakeFfiConfig w)) =
         (calls w ++ rws_create (MakeFfiConfig (Config (self w))) h :: tl)%list)) /\
  (forall (Cfg : Type) (MakeFfiConfig : Cfg -> DwebbleWSServerConfig)
          (InConfig : Cfg) (e0 : engine_state E) (cs : list HostCall),
      Config (self (after_calls E MakeFfiConfig InConfig e0 cs)) = InConfig).
Proof.
  split; [ | split; [ | split ] ].
  - intros c f. unfold f, DwebbleWebSocket.MakeFfiConfig. cbn.
    repeat split.
    + intros ->. reflexivity.
    + rewrite FString_Join_concat.
      destruct (DwebbleWebSocket.Subprotocols c);
        [ contradiction | reflexivity ].
    + now apply split_at_commas_concat.
    + intros ->. reflexivity.
    + intros Hne. apply FString_IsEmpty_false in Hne. now rewrite Hne.
    + intros ->. reflexivity.
    + intros Hne. apply FString_IsEmpty_false in Hne. now rewrite Hne.
  - intros c f. unfold f, Dwebble.MakeFfiConfig. cbn.
    repeat split;
      first [ intros ->; reflexivity
            | intros Hne; apply FString_IsEmpty_false in Hne; now rewrite Hne ].
  - intros Cfg mk w. split; [ apply Start_keeps_Config | ].
    intros Hr. destruct (Start_reaches_engine E Cfg mk w Hr) as (h & tl & H & _).
    now exists h, tl.
  - intros Cfg mk InConfig e0 cs.
    apply (config_kept _ _ _ _ (after_calls_consistent E Cfg mk InConfig e0 cs)).
Qed.

(** C10: the configured port reaches the engine reduced modulo 65536,
    whatever its value: 65536 as 0, -1 as 65535.  The translation of a
    configuration with port [P] is the translation of the same
    configuration with port [P mod 65536], so [Start] makes the same
    boundary calls and returns the same result for both; and [Start]
    answers [InvalidParam] only when the engine's [start] did, the facade
    having no check of its own. *)
Theorem port_truncated_to_16_bits :
  (forall (c : Dwebble.FDwebbleServerConfig) (P : Z),
      port (Dwebble.MakeFfiConfig (Dwebble.with_Port c P)) = P mod 65536 /\
      Dwebble.MakeFfiConfig (Dwebble.with_Port c P) =
      Dwebble.MakeFfiConfig (Dwebble.with_Port c (P mod 65536)) /\
      port (Dwebble.MakeFfiConfig (Dwebble.with_Port c 65536)) = 0 /\
      port (Dwebble.MakeFfiConfig (Dwebble.with_Port c (-1))) = 65535) /\
  (forall (c : DwebbleWebSocket.FServerConfig) (P : Z),
      port (DwebbleWebSocket.MakeFfiConfig (DwebbleWebSocket.with_Port c P))
      = P mod 65536 /\
      DwebbleWebSocket.MakeFfiConfig (DwebbleWebSocket.with_Port c P) =
      DwebbleWebSocket.MakeFfiConfig
        (DwebbleWebSocket.with_Port c (P mod 65536)) /\
      port (DwebbleWebSocket.MakeFfiConfig (DwebbleWebSocket.with_Port c 65536))
      = 0 /\
      port (DwebbleWebSocket.MakeFfiConfig (DwebbleWebSocket.with_Port c (-1)))
      = 65535) /\
  (forall (w : World E Dwebble.FDwebbleServerConfig) c (P : Z),
      let w16 := with_Config w (Dwebble.with_Port c (P mod 65536)) in
      Start E Dwebble.MakeFfiConfig (with_Config w (Dwebble.with_Port c P)) =
      (fst (Start E Dwebble.MakeFfiConfig w16),
       with_Config (snd (Start E Dwebble.MakeFfiConfig w16))
                   (Dwebble.with_Port c P))) /\
  (forall (w : World E DwebbleWebSocket.FServerConfig) c (P : Z),
      let w16 := with_Config w (DwebbleWebSocket.with_Port c (P mod 65536)) in
      Start E DwebbleWebSocket.MakeFfiConfig
            (with_Config w (DwebbleWebSocket.with_Port c P)) =
      (fst (Start E DwebbleWebSocket.MakeFfiConfig w16),
       with_Config (snd (Start E DwebbleWebSocket.MakeFfiConfig w16))
                   (DwebbleWebSocket.with_Port c P))) /\
  (forall (Cfg : Type) (MakeFfiConfig : Cfg -> DwebbleWSServerConfig)
          (w : World E Cfg),
      fst (Start E MakeFfiConfig w) = InvalidParam ->
      let cr := dwebble_rws_server_create E (MakeFfiConfig (Config (self w)))
                                          (rws w) in
      bIsRunning (self w) = false /\ fst cr <> nullptr /\
      fst (dwebble_rws_server_start E (fst cr) (snd cr)) =
      DWEBBLE_WS_RESULT_INVALID_PARAM).
Proof.
  assert (Hd : forall c P,
             Dwebble.MakeFfiConfig (Dwebble.with_Port c P) =
             Dwebble.MakeFfiConfig (Dwebble.with_Port c (P mod 65536))).
  { intros c P. unfold Dwebble.MakeFfiConfig, static_cast_uint16. cbn.
    now rewrite Z.mod_mod by lia. }
  assert (Hl : forall c P,
             DwebbleWebSocket.MakeFfiConfig (DwebbleWebSocket.with_Port c P) =
             DwebbleWebSocket.MakeFfiConfig
               (DwebbleWebSocket.with_Port c (P mod 65536))).
  { intros c P. unfold DwebbleWebSocket.MakeFfiConfig, static_cast_uint16. cbn.
    now rewrite Z.mod_mod by lia. }
  split; [ | split; [ | split; [ | split ] ] ].
  - intros c P. repeat split; try reflexivity. apply Hd.
  - intros c P. repeat split; try reflexivity. apply Hl.
  - intros w c P w16.
    apply (Start_through_translation E _ Dwebble.MakeFfiConfig w16
                                     (Dwebble.with_Port c P)).
    apply Hd.
  - intros w c P w16.
    apply (Start_through_translation E _ DwebbleWebSocket.MakeFfiConfig w16
                                     (DwebbleWebSocket.with_Port c P)).
    apply Hl.
  - intros Cfg mk w Hres.
    exact (Start_code_from_engine E Cfg mk w 2 ltac:(lia) ltac:(lia)
                                  ltac:(lia) Hres).
Qed.

(** What [Start] does on a facade that is not running, whatever the
    configuration: it reaches the engine with the translated configuration
    and answers from what the engine answered. *)
Lemma Start_forwards (Cfg : Type) (MakeFfiConfig : Cfg -> DwebbleWSServerConfig)
      (w : World E Cfg) :
  bIsRunning (self w) = false ->
  let f := MakeFfiConfig (Config (self w)) in
  let cr := dwebble_rws_server_create E f (rws w) in
  let r := fst (dwebble_rws_server_start E (fst cr) (snd cr)) in
  let res := fst (Start E MakeFfiConfig w) in
  (exists tl, calls (snd (Start E MakeFfiConfig w)) =
              (calls w ++ rws_create f (fst cr) :: tl)%list) /\
  res = (if (fst cr =? nullptr)%N then RuntimeError else ConvertResult r) /\
  (res = InvalidParam ->
   fst cr <> nullptr /\ r = DWEBBLE_WS_RESULT_INVALID_PARAM) /\
  (res = TlsError -> fst cr <> nullptr /\ r = DWEBBLE_WS_RESULT_TLS_ERROR) /\
  (res = Ok <-> fst cr <> nullptr /\ r = DWEBBLE_WS_RESULT_OK).
Proof.
  intros Hr f cr r res.
  split; [ | split; [ | split; [ | split ] ] ].
  - destruct (Start_reaches_engine E Cfg MakeFfiConfig w Hr) as (h & tl & H & ->).
    now exists tl.
  - apply (Start_result E Cfg MakeFfiConfig w Hr).
  - intros Hres.
    apply (Start_code_from_engine E Cfg MakeFfiConfig w 2
             ltac:(lia) ltac:(lia) ltac:(lia) Hres).
  - intros Hres.
    apply (Start_code_from_engine E Cfg MakeFfiConfig w 6
             ltac:(lia) ltac:(lia) ltac:(lia) Hres).
  - split.
    + intros Hres.
      apply (Start_code_from_engine E Cfg MakeFfiConfig w 0
               ltac:(lia) ltac:(lia) ltac:(lia) Hres).
    + intros [Hh Hok]. unfold res.
      rewrite (Start_result E Cfg MakeFfiConfig w Hr). fold f cr r.
      destruct (N.eqb_spec (fst cr) nullptr) as [e | _]; [ contradiction | ].
      rewrite Hok. exact (ConvertResult_nth 0 ltac:(lia)).
Qed.

(** C4, as the code has it: the facade does not look at the TLS paths.
    With exactly one of the two paths non-empty, [Start] on a facade that is
    not running goes to the engine like for any other configuration: it
    calls [create] with the present path and a null pointer for the empty
    one, answers [RuntimeError] when the engine gives no handle and the
    image of the engine's [start] outcome otherwise.  So [InvalidParam] and
    [TlsError] come back only when the engine's [start] reported them, and
    [Ok] comes back exactly when the engine's [start] reported OK. *)
Theorem half_tls_is_forwarded :
  (forall w : World E Dwebble.FDwebbleServerConfig,
      Dwebble.half_tls (Config (self w)) = true ->
      bIsRunning (self w) = false ->
      let f := Dwebble.MakeFfiConfig (Config (self w)) in
      let cr := dwebble_rws_server_create E f (rws w) in
      let r := fst (dwebble_rws_server_start E (fst cr) (snd cr)) in
      let res := fst (Start E Dwebble.MakeFfiConfig w) in
      one_tls_path_null f /\
      (exists tl, calls (snd (Start E Dwebble.MakeFfiConfig w)) =
                  (calls w ++ rws_create f (fst cr) :: tl)%list) /\
      res = (if (fst cr =? nullptr)%N then RuntimeError else ConvertResult r) /\
      (res = InvalidParam ->
       fst cr <> nullptr /\ r = DWEBBLE_WS_RESULT_INVALID_PARAM) /\
      (res = TlsError -> fst cr <> nullptr /\ r = DWEBBLE_WS_RESULT_TLS_ERROR) /\
      (res = Ok <-> fst cr <> nullptr /\ r = DWEBBLE_WS_RESULT_OK)) /\
  (forall w : World E DwebbleWebSocket.FServerConfig,
      DwebbleWebSocket.half_tls (Config (self w)) = true ->
      bIsRunning (self w) = false ->
      let f := DwebbleWebSocket.MakeFfiConfig (Config (self w)) in
      let cr := dwebble_rws_server_create E f (rws w) in
      let r := fst (dwebble_rws_server_start E (fst cr) (snd cr)) in
      let res := fst (Start E DwebbleWebSocket.MakeFfiConfig w) in
      one_tls_path_null f /\
      (exists tl, calls (snd (Start E DwebbleWebSocket.MakeFfiConfig w)) =
                  (calls w ++ rws_create f (fst cr) :: tl)%list) /\
      res = (if (fst cr =? nullptr)%N then RuntimeError else ConvertResult r) /\
      (res = InvalidParam ->
       fst cr <> nullptr /\ r = DWEBBLE_WS_RESULT_INVALID_PARAM) /\
      (res = TlsError -> fst cr <> nullptr /\ r = DWEBBLE_WS_RESULT_TLS_ERROR) /\
      (res = Ok <-> fst cr <> nullptr /\ r = DWEBBLE_WS_RESULT_OK)).
Proof.
  split; intros w Hhalf Hr f cr r res.
  - split; [ | apply (Start_forwards _ Dwebble.MakeFfiConfig w Hr) ].
    unfold one_tls_path_null, f, Dwebble.MakeFfiConfig. cbn.
    unfold Dwebble.half_tls in Hhalf.
    destruct (FString_IsEmpty (Dwebble.TlsCertPath (Config (self w))));
      destruct (FString_IsEmpty (Dwebble.TlsKeyPath (Config (self w))));
      try discriminate Hhalf; [ left | right ]; split; congruence.
  - split; [ | apply (Start_forwards _ DwebbleWebSocket.MakeFfiConfig w Hr) ].
    unfold one_tls_path_null, f, DwebbleWebSocket.MakeFfiConfig. cbn.
    unfold DwebbleWebSocket.half_tls in Hhalf.
    destruct (FString_IsEmpty (DwebbleWebSocket.TlsCertPath (Config (self w))));
      destruct (FString_IsEmpty (DwebbleWebSocket.TlsKeyPath (Config (self w))));
      try discriminate Hhalf; [ left | right ]; split; congruence.
Qed.

End Translation.

(** ** The event-type mapping *)

Section EventMapping.

Context {Hdr : DwebbleRwsHeader}.

Lemma DwebbleWSEventType_labels_NoDup : NoDup DwebbleWSEventType_labels.
Proof. exact DwebbleWSEventType_distinct. Qed.

(** [ConvertEventType] follows the position of its argument among the
    labels. *)
Lemma ConvertEventType_index (v : Z) :
  ConvertEventType v =
  match index_of v DwebbleWSEventType_labels with
  | Some i => nth i EEventType_names None_
  | None => None_
  end.
Proof.
  unfold ConvertEventType, DwebbleWSEventType_labels, index_of.
  repeat match goal with
  | |- context [ (v =? ?c) ] => destruct (Z.eqb_spec v c) as [_ | _]
  end; reflexivity.
Qed.

(** X1: the event-type mapping is the positional one on the five labels and sends
    everything else to [None]: each label [DWEBBLE_WS_EVENT_TYPE_*] in
    position [i] is mapped to the host's event type in position [i], a value
    that is none of the five labels is mapped to [None_], and a value mapped
    to an event type other than [None_] is the label of that name. *)
Theorem ConvertEventType_total :
  (forall i, (i < 5)%nat ->
     ConvertEventType (nth i DwebbleWSEventType_labels 0) =
     nth i EEventType_names None_) /\
  (forall v, ~ In v DwebbleWSEventType_labels -> ConvertEventType v = None_) /\
  (forall v i, (0 < i < 5)%nat ->
     ConvertEventType v = nth i EEventType_names None_ ->
     v = nth i DwebbleWSEventType_labels 0).
Proof.
  split; [ | split ].
  - intros i Hi. rewrite ConvertEventType_index.
    rewrite (index_of_nth _ DwebbleWSEventType_labels_NoDup) by (simpl; lia).
    reflexivity.
  - intros v Hn. rewrite ConvertEventType_index.
    now rewrite index_of_None.
  - intros v i Hi. rewrite ConvertEventType_index.
    destruct (index_of v DwebbleWSEventType_labels) as [k |] eqn:Hk.
    + apply index_of_Some in Hk.
      assert (Hlt : (k < 5)%nat)
        by (change 5%nat with (List.length DwebbleWSEventType_labels);
            apply nth_error_Some; congruence).
      intros Heq.
      assert (k = i).
      { do 5 (destruct k as [| k];
              [ do 5 (destruct i as [| i];
                      [ first [ reflexivity | discriminate Heq | lia ] | ]);
                lia | ]).
        lia. }
      subst k. symmetry. now apply nth_error_nth.
    + intros Heq. exfalso.
      do 5 (destruct i as [| i]; [ first [ discriminate Heq | lia ] | ]).
      lia.
Qed.

End EventMapping.

(** ** More about records of boundary calls *)

Lemma scan_snoc (tr : list EngineCall) (c : EngineCall) :
  scan (tr ++ [c]) = scan_step (scan tr) c.
Proof. unfold scan. now rewrite fold_left_app. Qed.

Lemma count_start_ok_app `{DwebbleRwsHeader} (a b : list EngineCall) :
  count_start_ok (a ++ b) = (count_start_ok a + count_start_ok b)%nat.
Proof.
  induction a as [| c a IH]; [ reflexivity | ].
  destruct c as [ | h r | | | | | | | | | | ]; simpl; try exact IH.
  destruct (r =? DWEBBLE_WS_RESULT_OK); simpl; now rewrite IH.
Qed.

Lemma count_stop_app (a b : list EngineCall) :
  count_stop (a ++ b) = (count_stop a + count_stop b)%nat.
Proof.
  induction a as [| c a IH]; [ reflexivity | ].
  destruct c; simpl; try exact IH. now rewrite IH.
Qed.

Lemma info_strings_app (a b : list EngineCall) :
  info_strings (a ++ b) = (info_strings a ++ info_strings b)%list.
Proof.
  induction a as [| c a IH]; [ reflexivity | ].
  destruct c as [ | | | | | | h [s |] | | | | | ]; simpl; try exact IH.
  now rewrite IH.
Qed.

Lemma create_configs_app (a b : list EngineCall) :
  create_configs (a ++ b) = (create_configs a ++ create_configs b)%list.
Proof.
  induction a as [| c a IH]; [ reflexivity | ].
  destruct c; simpl; try exact IH. now rewrite IH.
Qed.

Lemma remove_one_length (h : DwebbleWSServerHandle)
      (l : list DwebbleWSServerHandle) :
  In h l -> S (List.length (remove_one h l)) = List.length l.
Proof.
  induction l as [| x l IH]; simpl; [ tauto | ].
  intros Hin. destruct (N.eqb_spec x h) as [e | ne]; [ reflexivity | ].
  simpl. f_equal. apply IH. destruct Hin; [ contradiction | assumption ].
Qed.

(** ** The record of calls over a facade's life *)

Section Orderly.

Context {Hdr : DwebbleRwsHeader} {UE : UnrealCore}.
Variable E : Engine.
Variable Cfg : Type.
Variable MakeFfiConfig : Cfg -> DwebbleWSServerConfig.

Implicit Types (w : World E Cfg) (h : DwebbleWSServerHandle).

Lemma Create_orderly (InConfig : Cfg) (e0 : engine_state E) :
  orderly MakeFfiConfig InConfig (Create E InConfig e0).
Proof. split; try reflexivity. constructor. Qed.

Ltac orderly_fields :=
  cbn;
  rewrite ?scan_snoc, ?count_start_ok_app, ?count_stop_app,
    ?create_configs_app, ?freed_strings_app, ?info_strings_app;
  cbn.

Ltac orderly_close :=
  first
    [ assumption | reflexivity | lia
    | apply Forall_app; split;
      [ assumption
      | constructor;
        [ match goal with H : Config (self _) = _ |- _ => now rewrite H end
        | constructor ] ] ].

Ltac orderly_rw :=
  try match goal with
      | H : bIsRunning (self _) = _, B : count_start_ok _ = _ |- _ =>
          rewrite H in B
      end;
  try match goal with H : bIsRunning (self _) = _ |- _ => rewrite ?H end;
  try match goal with H : scan (calls _) = _ |- _ => rewrite H end;
  try match goal with H : freed_strings (calls _) = _ |- _ => rewrite H end;
  try match goal with
      | H : (_ =? DWEBBLE_WS_RESULT_OK) = _ |- _ => rewrite H
      end;
  rewrite ?app_nil_r; cbn;
  try match goal with
      | H : _ <> nullptr |- _ =>
          rewrite ?N.eqb_refl, ?(proj2 (N.eqb_neq _ nullptr) H)
      end;
  cbn.

Ltac orderly_null := split; orderly_fields; orderly_rw; orderly_close.

Ltac orderly_live := split; orderly_fields; orderly_rw; orderly_close.

Lemma step_orderly (InConfig : Cfg) w (c : HostCall) :
  orderly MakeFfiConfig InConfig w ->
  orderly MakeFfiConfig InConfig (step E MakeFfiConfig w c).
Proof.
  intros Hw. pose proof Hw as [Hcfg Hscan Hbal Hcre Hstr].
  destruct c; unfold step; unfold_facade; cbn.
  - (* Start *)
    destruct (bIsRunning (self w)) eqn:Hr; cbn; [ exact Hw | ].
    destruct (dwebble_rws_server_create E _ (rws w)) as [h e1]. cbn.
    destruct (N.eqb_spec h nullptr) as [-> | Hh]; cbn.
    + orderly_null.
    + destruct (dwebble_rws_server_start E h e1) as [r e2].
      destruct (r =? DWEBBLE_WS_RESULT_OK) eqn:Hok; orderly_live.
  - (* Stop *)
    destruct (bIsRunning (self w)) eqn:Hr; cbn; [ | exact Hw ].
    destruct (N.eqb_spec (ServerHandle (self w)) nullptr) as [e | Hh]; cbn;
      [ exact Hw | ].
    destruct (dwebble_rws_server_stop E _ (rws w)) as [r e1].
    orderly_live.
  - exact Hw.
  - (* GetPort *)
    destruct (N.eqb_spec (ServerHandle (self w)) nullptr) as [e | Hh]; cbn;
      [ exact Hw | ].
    destruct (dwebble_rws_server_get_port E _ (rws w)) as [r e1].
    orderly_live.
  - (* GetConnectionCount *)
    destruct (N.eqb_spec (ServerHandle (self w)) nullptr) as [e | Hh]; cbn;
      [ exact Hw | ].
    destruct (dwebble_rws_server_get_connection_count E _ (rws w)) as [r e1].
    orderly_live.
  - (* Info *)
    destruct (N.eqb_spec (ServerHandle (self w)) nullptr) as [e | Hh]; cbn;
      [ exact Hw | ].
    destruct (dwebble_rws_server_info E _ (rws w)) as [[str |] e1];
      orderly_live.
  - (* Send *)
    destruct (N.eqb_spec (ServerHandle (self w)) nullptr) as [e | Hh]; cbn;
      [ exact Hw | ].
    destruct (dwebble_rws_server_send E _ Id Bytes (rws w)) as [r e1].
    orderly_live.
  - (* SendText *)
    destruct (N.eqb_spec (ServerHandle (self w)) nullptr) as [e | Hh]; cbn;
      [ exact Hw | ].
    destruct (dwebble_rws_server_send_text E _ Id _ (rws w)) as [r e1].
    orderly_live.
  - (* Disconnect *)
    destruct (N.eqb_spec (ServerHandle (self w)) nullptr) as [e | Hh]; cbn;
      [ exact Hw | ].
    destruct (dwebble_rws_server_disconnect E _ Id (rws w)) as [r e1].
    orderly_live.
  - (* PollEvent *)
    destruct (N.eqb_spec (ServerHandle (self w)) nullptr) as [e | Hh]; cbn;
      [ exact Hw | ].
    destruct (dwebble_rws_server_poll E _ (rws w)) as [[ev |] e1];
      orderly_live.
Qed.

Lemma after_calls_orderly (InConfig : Cfg) (e0 : engine_state E)
      (cs : list HostCall) :
  orderly MakeFfiConfig InConfig (after_calls E MakeFfiConfig InConfig e0 cs).
Proof.
  unfold after_calls. generalize (Create_orderly InConfig e0).
  generalize (Create E InConfig e0). induction cs as [| c cs IH]; intros w Hw;
    [ exact Hw | ].
  cbn. apply IH, step_orderly, Hw.
Qed.

End Orderly.

(** ** What the record of calls shows *)

Lemma scan_step_Some (cur0 cur : DwebbleWSServerHandle) (c : EngineCall) :
  scan_step (Some cur0) c = Some cur ->
  (exists f, c = rws_create f cur) \/
  (created [c] = [] /\
   ((call_handle c = None /\ cur = cur0) \/
    (call_handle c = Some cur0 /\ cur0 <> nullptr /\
     (cur = cur0 \/ cur = nullptr)))).
Proof.
  destruct c as [f h' | h' r | h' r | h' | h' | h' | h' r | str | h' i b
                 | h' i t | h' i | h' r]; cbn.
  1: intros [= <-]; left; now exists f.
  7: intros [= <-]; right; split; [ reflexivity | left; now split ].
  all: destruct (N.eqb_spec h' cur0) as [-> | ne]; cbn; [ | discriminate ];
    destruct (N.eqb_spec cur0 nullptr) as [e | ne]; cbn; [ discriminate | ];
    intros [= <-]; right; split; [ reflexivity | right ]; repeat split; auto.
Qed.

(** What [scan] accepting a record means, call by call: every call that
    takes a handle was made on a handle that is not null and that the engine
    had given out. *)
Lemma scan_sound (tr : list EngineCall) (cur : DwebbleWSServerHandle) :
  scan tr = Some cur ->
  (cur = nullptr \/ In cur (created tr)) /\
  (forall c h, In c tr -> call_handle c = Some h ->
               h <> nullptr /\ In h (created tr)).
Proof.
  revert cur. induction tr as [| c tr IH] using rev_ind; intros cur Hs.
  - cbv in Hs. injection Hs as <-. split; [ now left | intros c h [] ].
  - rewrite scan_snoc in Hs. rewrite created_app.
    destruct (scan tr) as [cur0 |] eqn:Hcur0; [ | discriminate ].
    destruct (IH cur0 eq_refl) as [Hcur Hall].
    assert (Hold : forall c0 h, In c0 tr -> call_handle c0 = Some h ->
                                h <> nullptr /\ In h (created tr ++ created [c]))
      by (intros c0 h Hin Hc; destruct (Hall c0 h Hin Hc); split;
          [ assumption | apply in_or_app; now left ]).
    apply scan_step_Some in Hs as [[f ->] | [Hnil Hs]].
    + split.
      * cbn. destruct (N.eqb_spec cur nullptr) as [e | ne]; [ now left | ].
        right. apply in_or_app. right. now left.
      * intros c h Hin Hc. apply in_app_or in Hin as [Hin | [<- | []]];
          [ exact (Hold _ _ Hin Hc) | discriminate ].
    + rewrite Hnil, app_nil_r in *.
      destruct Hs as [[Hnone ->] | (Hsome & Hne & Hcur')].
      * split; [ exact Hcur | ].
        intros c0 h Hin Hc. apply in_app_or in Hin as [Hin | [<- | []]];
          [ exact (Hall _ _ Hin Hc) | congruence ].
      * assert (Hin0 : In cur0 (created tr))
          by (destruct Hcur; [ contradiction | assumption ]).
        split; [ destruct Hcur' as [-> | ->]; [ now right | now left ] | ].
        intros c0 h Hin Hc. apply in_app_or in Hin as [Hin | [<- | []]];
          [ exact (Hall _ _ Hin Hc) | ].
        rewrite Hsome in Hc. injection Hc as <-. now split.
Qed.

Section Records.

Context {Hdr : DwebbleRwsHeader} {UE : UnrealCore}.
Variable E : Engine.
Variable Cfg : Type.
Variable MakeFfiConfig : Cfg -> DwebbleWSServerConfig.

Implicit Types (w : World E Cfg) (h : DwebbleWSServerHandle).

(** What the destructor appends to the record. *)
Lemma Destructor_calls w :
  calls (snd (Destructor E w)) =
  (calls w ++
   if (ServerHandle (self w) =? nullptr)%N then []
   else
     (if bIsRunning (self w)
      then [rws_stop (ServerHandle (self w))
                     (fst (dwebble_rws_server_stop E (ServerHandle (self w))
                                                   (rws w)))]
      else [])
     ++ [rws_destroy (ServerHandle (self w))])%list.
Proof.
  unfold_facade.
  destruct (N.eqb_spec (ServerHandle (self w)) nullptr) as [e | ne]; cbn;
    [ now rewrite app_nil_r | ].
  destruct (bIsRunning (self w)); cbn.
  - rewrite (proj2 (N.eqb_neq _ _) ne). cbn.
    destruct (dwebble_rws_server_stop E (ServerHandle (self w)) (rws w))
      as [r e1]. cbn. now rewrite <- app_assoc.
  - reflexivity.
Qed.

(** X2: over a whole lifetime the facade never hands the engine a null handle or
    a handle the engine did not give out: every boundary call that takes a
    handle is made on the non-null result of the latest [create], none is
    made after the [destroy], and at the end no handle is current. *)
Theorem calls_are_on_live_handles (InConfig : Cfg) (e0 : engine_state E)
        (cs : list HostCall) :
  let tr := calls (lifetime E MakeFfiConfig InConfig e0 cs) in
  scan tr = Some nullptr /\
  (forall c h, In c tr -> call_handle c = Some h ->
               h <> nullptr /\ In h (created tr)).
Proof.
  intros tr.
  assert (Hs : scan tr = Some nullptr).
  { unfold tr, lifetime. rewrite Destructor_calls.
    pose proof (after_calls_orderly E Cfg MakeFfiConfig InConfig e0 cs) as Ho.
    pose proof (after_calls_consistent E Cfg MakeFfiConfig InConfig e0 cs) as Hc.
    set (w := after_calls E MakeFfiConfig InConfig e0 cs) in *.
    destruct Ho as [_ Hscan _ _ _]. destruct Hc as [Hrun _ _ _].
    destruct (N.eqb_spec (ServerHandle (self w)) nullptr) as [e | ne].
    - rewrite app_nil_r, Hscan. now f_equal.
    - destruct (bIsRunning (self w)).
      + rewrite app_assoc, !scan_snoc, Hscan. cbn.
        rewrite N.eqb_refl, (proj2 (N.eqb_neq _ _) ne). cbn.
        rewrite N.eqb_refl, (proj2 (N.eqb_neq _ _) ne). reflexivity.
      + cbn [app]. rewrite scan_snoc, Hscan. cbn.
        rewrite N.eqb_refl, (proj2 (N.eqb_neq _ _) ne). reflexivity. }
  split; [ exact Hs | apply (scan_sound tr nullptr Hs) ].
Qed.

(** X3: starts and stops balance: at every moment the engine has answered OK to
    one more [start] than it has seen [stop]s exactly when the facade is
    running, and to as many otherwise; by the end of the lifetime every
    successful [start] has been followed by a [stop]. *)
Theorem starts_and_stops_balance (InConfig : Cfg) (e0 : engine_state E)
        (cs : list HostCall) :
  let w := after_calls E MakeFfiConfig InConfig e0 cs in
  count_start_ok (calls w) =
    (count_stop (calls w) + if bIsRunning (self w) then 1 else 0)%nat /\
  count_start_ok (calls (lifetime E MakeFfiConfig InConfig e0 cs)) =
    count_stop (calls (lifetime E MakeFfiConfig InConfig e0 cs)).
Proof.
  intros w.
  pose proof (after_calls_orderly E Cfg MakeFfiConfig InConfig e0 cs) as Ho.
  pose proof (after_calls_consistent E Cfg MakeFfiConfig InConfig e0 cs) as Hc.
  fold w in Ho, Hc. destruct Ho as [_ _ Hbal _ _]. destruct Hc as [Hrun _ _ _].
  split; [ exact Hbal | ].
  unfold lifetime. fold w. rewrite Destructor_calls.
  rewrite count_start_ok_app, count_stop_app, Hbal.
  destruct (N.eqb_spec (ServerHandle (self w)) nullptr) as [e | ne].
  - destruct (bIsRunning (self w)); [ now elim Hrun | cbn; lia ].
  - destruct (bIsRunning (self w)); cbn; lia.
Qed.

(** X4: every [create] of a lifetime is called with the translation of the
    configuration the facade was made from, however often the host restarts
    the facade. *)
Theorem create_always_gets_the_configuration (InConfig : Cfg)
        (e0 : engine_state E) (cs : list HostCall) :
  Forall (fun f => f = MakeFfiConfig InConfig)
         (create_configs (calls (lifetime E MakeFfiConfig InConfig e0 cs))).
Proof.
  pose proof (after_calls_orderly E Cfg MakeFfiConfig InConfig e0 cs) as Ho.
  destruct Ho as [_ _ _ Hcre _].
  unfold lifetime. rewrite Destructor_calls, create_configs_app.
  apply Forall_app. split; [ exact Hcre | ].
  destruct (ServerHandle (self _) =? nullptr)%N; [ constructor | ].
  destruct (bIsRunning (self _)); constructor.
Qed.

(** X5: [Info] with a handle: a string the engine hands out is converted and
    then given back to the engine with [dwebble_rws_free_string] before
    [Info] returns; when the engine hands out none, [Info] answers the empty
    string and frees nothing.  Over a whole lifetime the strings freed are
    exactly the strings [info] handed out, in the same order. *)
Theorem Info_frees_the_engine_string :
  (forall w, ServerHandle (self w) <> nullptr ->
     forall e1,
       (forall str,
           dwebble_rws_server_info E (ServerHandle (self w)) (rws w)
             = (Some str, e1) ->
           Info E w =
           (UTF8_TO_TCHAR str,
            {| self := self w; rws := dwebble_rws_free_string E str e1;
               calls := (calls w ++ [rws_info (ServerHandle (self w)) (Some str)])
                          ++ [rws_free_string str] |})) /\
       (dwebble_rws_server_info E (ServerHandle (self w)) (rws w)
          = (None, e1) ->
        Info E w =
        ("", {| self := self w; rws := e1;
                calls := calls w ++ [rws_info (ServerHandle (self w)) None] |}))) /\
  (forall (InConfig : Cfg) (e0 : engine_state E) (cs : list HostCall),
      let tr := calls (lifetime E MakeFfiConfig InConfig e0 cs) in
      freed_strings tr = info_strings tr).
Proof.
  split.
  - intros w Hh e1. split.
    + intros str Hi. unfold_facade.
      rewrite (proj2 (N.eqb_neq _ _) Hh), Hi. reflexivity.
    + intros Hi. unfold_facade.
      rewrite (proj2 (N.eqb_neq _ _) Hh), Hi. reflexivity.
  - intros InConfig e0 cs tr. unfold tr, lifetime.
    pose proof (after_calls_orderly E Cfg MakeFfiConfig InConfig e0 cs) as Ho.
    destruct Ho as [_ _ _ _ Hstr].
    rewrite Destructor_calls, freed_strings_app, info_strings_app, Hstr.
    f_equal.
    destruct (ServerHandle (self _) =? nullptr)%N; [ reflexivity | ].
    destruct (bIsRunning (self _)); reflexivity.
Qed.

(** X6: a lifetime leaks all but at most one of the handles the engine gave
    out: at most one handle is released, and the handles left unreleased are
    the others. *)
Theorem leaked_handles_count (InConfig : Cfg) (e0 : engine_state E)
        (cs : list HostCall) :
  let tr := calls (lifetime E MakeFfiConfig InConfig e0 cs) in
  (List.length (destroyed tr) <= 1)%nat /\
  List.length (created tr) =
    (List.length (leaked tr) + List.length (destroyed tr))%nat.
Proof.
  intros tr.
  pose proof (after_calls_consistent E Cfg MakeFfiConfig InConfig e0 cs) as Hc.
  set (w := after_calls E MakeFfiConfig InConfig e0 cs) in *.
  destruct Hc as [_ Hdes Hlast _].
  assert (Hd : destroyed tr =
               if (ServerHandle (self w) =? nullptr)%N then []
               else [ServerHandle (self w)])
    by (apply Destructor_destroyed, Hdes).
  assert (Hcr : created tr = created (calls w)).
  { unfold tr, lifetime. fold w.
    now rewrite !created_create_returns, Destructor_create_returns. }
  unfold leaked. rewrite Hd, Hcr.
  destruct (N.eqb_spec (ServerHandle (self w)) nullptr) as [e | ne]; cbn.
  - split; lia.
  - split; [ lia | ].
    rewrite <- (remove_one_length (ServerHandle (self w)) (created (calls w)));
      [ lia | ].
    rewrite Hlast in *. now apply last_create_created.
Qed.

End Records.

(** ** How the member functions compose *)

Section Composition.

Context {Hdr : DwebbleRwsHeader} {UE : UnrealCore}.
Variable E : Engine.
Variable Cfg : Type.
Variable MakeFfiConfig : Cfg -> DwebbleWSServerConfig.

Implicit Types (w : World E Cfg) (h : DwebbleWSServerHandle).

(** X7: only [Start] and [Stop] change the object: every other call leaves the
    configuration, the handle and the running flag as they were, and [Stop]
    leaves the configuration and the handle as they were. *)
Theorem only_Start_and_Stop_change_the_object w (c : HostCall) :
  (is_lifecycle_call c = false -> self (step E MakeFfiConfig w c) = self w) /\
  (is_CallStart c = false ->
   ServerHandle (self (step E MakeFfiConfig w c)) = ServerHandle (self w) /\
   Config (self (step E MakeFfiConfig w c)) = Config (self w)).
Proof.
  assert (Hframe : is_lifecycle_call c = false ->
                   self (step E MakeFfiConfig w c) = self w).
  { intros Hc. destruct c; try discriminate Hc; unfold step; unfold_facade; cbn;
      try reflexivity;
      destruct (ServerHandle (self w) =? nullptr)%N; cbn; try reflexivity.
    - now destruct (dwebble_rws_server_get_port E _ (rws w)).
    - now destruct (dwebble_rws_server_get_connection_count E _ (rws w)).
    - now destruct (dwebble_rws_server_info E _ (rws w)) as [[str |] e1].
    - now destruct (dwebble_rws_server_send E _ Id Bytes (rws w)).
    - now destruct (dwebble_rws_server_send_text E _ Id _ (rws w)).
    - now destruct (dwebble_rws_server_disconnect E _ Id (rws w)).
    - now destruct (dwebble_rws_server_poll E _ (rws w)) as [[ev |] e1]. }
  split; [ exact Hframe | ].
  intros Hc. destruct c; try discriminate Hc;
    try (rewrite Hframe by reflexivity; now split).
  unfold step. unfold_facade.
  destruct (negb (bIsRunning (self w)) || (ServerHandle (self w) =? nullptr)%N);
    [ now split | ].
  destruct (dwebble_rws_server_stop E (ServerHandle (self w)) (rws w)).
  now split.
Qed.

(** A call other than [Start] on a facade without a handle changes nothing
    at all. *)
Lemma step_without_handle w (c : HostCall) :
  ServerHandle (self w) = nullptr -> is_CallStart c = false ->
  step E MakeFfiConfig w c = w.
Proof.
  intros Hh Hc. destruct c; try discriminate Hc; unfold step; unfold_facade;
    rewrite ?Hh; cbn; try reflexivity.
  now rewrite orb_true_r.
Qed.

(** X8: until the host calls [Start], nothing reaches the engine: after any calls
    none of which is [Start], the facade, the engine and the record of calls
    are what they were at construction, and destroying the facade then
    changes nothing either. *)
Theorem nothing_happens_before_Start (InConfig : Cfg) (e0 : engine_state E)
        (cs : list HostCall) :
  forallb (fun c => negb (is_CallStart c)) cs = true ->
  after_calls E MakeFfiConfig InConfig e0 cs = Create E InConfig e0 /\
  lifetime E MakeFfiConfig InConfig e0 cs = Create E InConfig e0.
Proof.
  intros Hcs.
  assert (H : after_calls E MakeFfiConfig InConfig e0 cs = Create E InConfig e0).
  { unfold after_calls.
    assert (Hg : forall w, ServerHandle (self w) = nullptr ->
                           fold_left (step E MakeFfiConfig) cs w = w).
    { induction cs as [| c cs IH]; intros w Hh; [ reflexivity | ].
      cbn in Hcs. apply andb_true_iff in Hcs as [Hc Hcs].
      apply negb_true_iff in Hc. cbn.
      rewrite (step_without_handle w c Hh Hc). now apply IH. }
    now apply Hg. }
  split; [ exact H | ].
  unfold lifetime. rewrite H. reflexivity.
Qed.

(** X9: [Stop] twice is [Stop] once: whatever the first [Stop] did, a second one
    right after it answers [NotRunning] and changes nothing. *)
Theorem Stop_twice w :
  Stop E (snd (Stop E w)) = (NotRunning, snd (Stop E w)).
Proof.
  apply Stop_not_running. unfold_facade.
  destruct (bIsRunning (self w)) eqn:Hr; cbn.
  - destruct (N.eqb_spec (ServerHandle (self w)) nullptr) as [e | ne]; cbn.
    + now right.
    + destruct (dwebble_rws_server_stop E (ServerHandle (self w)) (rws w)).
      now left.
  - now left.
Qed.

(** X10: the destructor of a facade that holds a handle stops the engine first
    when the facade is running, and only then releases the handle; on a
    facade that is not running it releases the handle without a [stop].
    Running it a second time does nothing. *)
Theorem Destructor_stops_then_destroys w :
  (ServerHandle (self w) <> nullptr ->
   calls (snd (Destructor E w)) =
   (calls w ++
    (if bIsRunning (self w)
     then [rws_stop (ServerHandle (self w))
                    (fst (dwebble_rws_server_stop E (ServerHandle (self w))
                                                  (rws w)))]
     else [])
    ++ [rws_destroy (ServerHandle (self w))])%list /\
   bIsRunning (self (snd (Destructor E w))) = false) /\
  Destructor E (snd (Destructor E w)) = (tt, snd (Destructor E w)).
Proof.
  split.
  - intros Hh. split.
    + rewrite Destructor_calls. now rewrite (proj2 (N.eqb_neq _ _) Hh).
    + unfold_facade. rewrite (proj2 (N.eqb_neq _ _) Hh). cbn.
      destruct (bIsRunning (self w)) eqn:Hr; cbn.
      * rewrite (proj2 (N.eqb_neq _ _) Hh). cbn.
        now destruct (dwebble_rws_server_stop E (ServerHandle (self w)) (rws w)).
      * exact Hr.
  - apply Destructor_no_handle, Destructor_forgets_handle.
Qed.

(** X11: [Send], [SendText] and [Disconnect] look at the handle only, not at the
    running flag: on any facade that holds a handle, started, stopped or
    never successfully started, each makes exactly one boundary call on that
    handle ([SendText] with the text cast to ANSI), answers the image of the
    engine's result, and leaves the object as it was. *)
Theorem data_operations_need_only_a_handle w (Id : N) :
  ServerHandle (self w) <> nullptr ->
  let h := ServerHandle (self w) in
  (forall Bytes,
      let r := dwebble_rws_server_send E h Id Bytes (rws w) in
      Send E Id Bytes w =
      (ConvertResult (fst r),
       {| self := self w; rws := snd r;
          calls := calls w ++ [rws_send h Id Bytes] |})) /\
  (forall Text,
      let r := dwebble_rws_server_send_text E h Id (StringCast_ANSICHAR Text)
                                            (rws w) in
      SendText E Id Text w =
      (ConvertResult (fst r),
       {| self := self w; rws := snd r;
          calls := calls w ++ [rws_send_text h Id (StringCast_ANSICHAR Text)] |})) /\
  (let r := dwebble_rws_server_disconnect E h Id (rws w) in
   Disconnect E Id w =
   (ConvertResult (fst r),
    {| self := self w; rws := snd r;
       calls := calls w ++ [rws_disconnect h Id] |})).
Proof.
  intros Hh h. unfold h.
  repeat split; intros; unfold_facade; rewrite (proj2 (N.eqb_neq _ _) Hh).
  - now destruct (dwebble_rws_server_send E _ Id Bytes (rws w)).
  - now destruct (dwebble_rws_server_send_text E _ Id _ (rws w)).
  - now destruct (dwebble_rws_server_disconnect E _ Id (rws w)).
Qed.

Lemma static_cast_int32_range (v : Z) :
  -2147483648 <= static_cast_int32 v < 2147483648.
Proof.
  unfold static_cast_int32.
  pose proof (Z.mod_pos_bound (v + 2147483648) 4294967296 ltac:(lia)). lia.
Qed.

Lemma static_cast_int32_id (v : Z) :
  -2147483648 <= v < 2147483648 -> static_cast_int32 v = v.
Proof.
  intros Hv. unfold static_cast_int32. rewrite Z.mod_small by lia. lia.
Qed.

(** X12: [GetPort] and [GetConnectionCount] on a facade with a handle answer the
    engine's number converted to [int32]: always within the [int32] range,
    the engine's own number whenever that fits (so every 16-bit port), and
    for a connection count from 2^31 up to 2^32 - 1 the count minus 2^32, a
    negative number. *)
Theorem queries_convert_to_int32 w :
  ServerHandle (self w) <> nullptr ->
  let p := fst (dwebble_rws_server_get_port E (ServerHandle (self w)) (rws w)) in
  let n := fst (dwebble_rws_server_get_connection_count
                  E (ServerHandle (self w)) (rws w)) in
  (-2147483648 <= fst (GetPort E w) < 2147483648 /\
   (0 <= p < 65536 -> fst (GetPort E w) = p)) /\
  (-2147483648 <= fst (GetConnectionCount E w) < 2147483648 /\
   (0 <= n < 2147483648 -> fst (GetConnectionCount E w) = n) /\
   (2147483648 <= n < 4294967296 ->
    fst (GetConnectionCount E w) = n - 4294967296)).
Proof.
  intros Hh p n.
  assert (Hp : fst (GetPort E w) = static_cast_int32 p).
  { unfold p. unfold_facade. rewrite (proj2 (N.eqb_neq _ _) Hh).
    now destruct (dwebble_rws_server_get_port E _ (rws w)). }
  assert (Hn : fst (GetConnectionCount E w) = static_cast_int32 n).
  { unfold n. unfold_facade. rewrite (proj2 (N.eqb_neq _ _) Hh).
    now destruct (dwebble_rws_server_get_connection_count E _ (rws w)). }
  rewrite Hp, Hn. repeat split; try apply static_cast_int32_range.
  - intros H. apply static_cast_int32_id. lia.
  - intros H. apply static_cast_int32_id. lia.
  - intros H. unfold static_cast_int32.
    replace (n + 2147483648) with ((n - 2147483648) + 1 * 4294967296) by lia.
    rewrite Z.mod_add by lia. rewrite Z.mod_small by lia. lia.
Qed.

(** X13: a successful [PollEvent] overwrites the whole out-parameter: the event
    it returns, and the world it leaves, do not depend on what the
    out-parameter held before, so nothing of an earlier event survives in a
    reused [FEvent]. *)
Theorem PollEvent_overwrites_OutEvent w (Out1 Out2 : FEvent) :
  fst (fst (PollEvent E Out1 w)) = true ->
  PollEvent E Out1 w = PollEvent E Out2 w.
Proof.
  unfold_facade.
  destruct (ServerHandle (self w) =? nullptr)%N; cbn; [ discriminate | ].
  destruct (dwebble_rws_server_poll E (ServerHandle (self w)) (rws w))
    as [[ev |] e1]; cbn; [ reflexivity | discriminate ].
Qed.

(** X14: the payload of the host's event, whatever the event's type: the
    engine's buffer, byte for byte, when the engine reports its length; empty
    when the data pointer is null or the reported length is not positive;
    never longer than the reported length.  The connection id is the
    engine's. *)
Theorem marshal_copies_the_payload (ev : DwebbleWSEvent) :
  (forall buf, data ev = Some buf ->
               data_len ev = Z.of_nat (List.length buf) ->
               Data (marshal ev) = buf) /\
  (data ev = None \/ data_len ev <= 0 -> Data (marshal ev) = []) /\
  Z.of_nat (List.length (Data (marshal ev))) <= Z.max 0 (data_len ev) /\
  ConnectionId (marshal ev) = connection_id ev.
Proof.
  unfold marshal, Memcpy. cbn. repeat split.
  - intros buf -> ->. destruct buf as [| b buf]; [ reflexivity | ].
    replace (0 <? Z.of_nat (List.length (b :: buf))) with true
      by (symmetry; apply Z.ltb_lt; cbn [List.length]; lia).
    rewrite Nat2Z.id. apply firstn_all.
  - intros [-> | Hle]; [ reflexivity | ].
    destruct (data ev); [ | reflexivity ].
    now replace (0 <? data_len ev) with false by (symmetry; apply Z.ltb_ge; lia).
  - destruct (data ev) as [buf |]; cbn; [ | lia ].
    destruct (Z.ltb_spec 0 (data_len ev)); cbn; [ | lia ].
    pose proof (firstn_le_length (Z.to_nat (data_len ev)) buf). lia.
Qed.

End Composition.

(** ** The port and the bind address at the boundary *)

Section Boundary.

Context {UE : UnrealCore}.

(** X15: whatever the configured port, the engine receives a 16-bit value, and a
    configured port that is one is received unchanged; the bind address is
    always handed over as a string, never as a null pointer, also when it is
    empty.  Both copies of the translation agree on this. *)
Theorem port_in_range_is_unchanged :
  (forall c : Dwebble.FDwebbleServerConfig,
      let f := Dwebble.MakeFfiConfig c in
      0 <= port f < 65536 /\
      (0 <= Dwebble.Port c < 65536 -> port f = Dwebble.Port c) /\
      bind_address f = Some (StringCast_ANSICHAR (Dwebble.BindAddress c))) /\
  (forall c : DwebbleWebSocket.FServerConfig,
      let f := DwebbleWebSocket.MakeFfiConfig c in
      0 <= port f < 65536 /\
      (0 <= DwebbleWebSocket.Port c < 65536 ->
       port f = DwebbleWebSocket.Port c) /\
      bind_address f =
      Some (StringCast_ANSICHAR (DwebbleWebSocket.BindAddress c))).
Proof.
  split; intros c f; unfold f; cbn; unfold static_cast_uint16;
    (repeat split;
     [ apply Z.mod_pos_bound; lia | apply Z.mod_pos_bound; lia
     | intros H; apply Z.mod_small; lia ]).
Qed.

End Boundary.

(** ** The plugin module *)

Lemma dll_loaded_app (a b : list PlatformCall) :
  dll_loaded (a ++ b) = (dll_loaded a ++ dll_loaded b)%list.
Proof.
  induction a as [| c a IH]; [ reflexivity | ].
  destruct c as [path h | | | | | ]; simpl; try exact IH.
  destruct (h =? 0)%N; simpl; now rewrite IH.
Qed.

Lemma dll_freed_app (a b : list PlatformCall) :
  dll_freed (a ++ b) = (dll_freed a ++ dll_freed b)%list.
Proof.
  induction a as [| c a IH]; [ reflexivity | ].
  destruct c; simpl; try exact IH. now rewrite IH.
Qed.

Lemma count_dll_get_app (a b : list PlatformCall) :
  count_dll_get (a ++ b) = (count_dll_get a + count_dll_get b)%nat.
Proof.
  induction a as [| c a IH]; [ reflexivity | ].
  destruct c; simpl; try exact IH. now rewrite IH.
Qed.

Section PluginModuleFacts.

Variable P : Platform.

Implicit Types w : ModuleWorld P.

(** X16: [ShutdownModule] releases the library exactly when one is held, once,
    and forgets it: afterwards the global is null, and a second
    [ShutdownModule] does nothing. *)
Theorem ShutdownModule_frees_once w :
  GDwebbleRwsDllHandle (ShutdownModule P w) = 0%N /\
  dll_freed (platform_calls (ShutdownModule P w)) =
    (dll_freed (platform_calls w) ++
     if (GDwebbleRwsDllHandle w =? 0)%N then [] else [GDwebbleRwsDllHandle w])%list /\
  ShutdownModule P (ShutdownModule P w) = ShutdownModule P w.
Proof.
  unfold ShutdownModule.
  destruct (N.eqb_spec (GDwebbleRwsDllHandle w) 0) as [e | ne]; cbn.
  - rewrite app_nil_r. repeat split; [ exact e | ].
    now rewrite (proj2 (N.eqb_eq _ _) e).
  - rewrite dll_freed_app. cbn. repeat split.
Qed.

(** X17: [StartupModule] loads the library only when the file is there.  When it
    is not, the global and the platform are left as they were and the only
    thing done is the warning; when it is, the global becomes whatever
    [GetDllHandle] returned, null included, after exactly one load.  In no
    case does [StartupModule] free a library, not even one the global already
    holds. *)
Theorem StartupModule_loads_if_present w :
  (FPaths_FileExists P (DllPath P w) (platform w) = false ->
   StartupModule P w =
   {| GDwebbleRwsDllHandle := GDwebbleRwsDllHandle w; platform := platform w;
      platform_calls := platform_calls w ++ [log_not_found (DllPath P w)] |}) /\
  (FPaths_FileExists P (DllPath P w) (platform w) = true ->
   GDwebbleRwsDllHandle (StartupModule P w) =
     fst (FPlatformProcess_GetDllHandle P (DllPath P w) (platform w)) /\
   count_dll_get (platform_calls (StartupModule P w)) =
     S (count_dll_get (platform_calls w))) /\
  dll_freed (platform_calls (StartupModule P w)) = dll_freed (platform_calls w).
Proof.
  unfold StartupModule.
  destruct (FPaths_FileExists P (DllPath P w) (platform w)); repeat split;
    try discriminate.
  - destruct (FPlatformProcess_GetDllHandle P (DllPath P w) (platform w)).
    reflexivity.
  - destruct (FPlatformProcess_GetDllHandle P (DllPath P w) (platform w))
      as [h p']. cbn. rewrite count_dll_get_app. cbn.
    destruct (h =? 0)%N; cbn; lia.
  - destruct (FPlatformProcess_GetDllHandle P (DllPath P w) (platform w))
      as [h p']. cbn. rewrite dll_freed_app. cbn.
    destruct (h =? 0)%N; cbn; now rewrite app_nil_r.
  - cbn. rewrite dll_freed_app. cbn. now rewrite app_nil_r.
Qed.

Lemma round_balanced w :
  GDwebbleRwsDllHandle w = 0%N ->
  dll_freed (platform_calls w) = dll_loaded (platform_calls w) ->
  let w' := ShutdownModule P (StartupModule P w) in
  GDwebbleRwsDllHandle w' = 0%N /\
  dll_freed (platform_calls w') = dll_loaded (platform_calls w').
Proof.
  intros Hg Hbal. cbv zeta. unfold ShutdownModule, StartupModule.
  destruct (FPaths_FileExists P (DllPath P w) (platform w)).
  - destruct (FPlatformProcess_GetDllHandle P (DllPath P w) (platform w))
      as [h p']. cbn.
    destruct (N.eqb_spec h 0) as [-> | ne]; cbn.
    + rewrite dll_freed_app, dll_loaded_app, Hbal. cbn. now split.
    + rewrite !dll_freed_app, !dll_loaded_app, Hbal. cbn.
      rewrite (proj2 (N.eqb_neq _ _) ne). cbn.
      rewrite <- !app_assoc. now split.
  - cbn. rewrite Hg. cbn. rewrite dll_freed_app, dll_loaded_app, Hbal. cbn.
    now split.
Qed.

(** X18: starting the module and shutting it down, any number of times in turn,
    from a fresh process: every library handle obtained has been released,
    once and in the order obtained, and the global is null again. *)
Theorem module_rounds_are_balanced (p0 : platform_state P) (n : nat) :
  let w := module_rounds P n (module_initial P p0) in
  GDwebbleRwsDllHandle w = 0%N /\
  dll_freed (platform_calls w) = dll_loaded (platform_calls w).
Proof.
  cbv zeta.
  assert (Hg : forall w,
             GDwebbleRwsDllHandle w = 0%N ->
             dll_freed (platform_calls w) = dll_loaded (platform_calls w) ->
             GDwebbleRwsDllHandle (module_rounds P n w) = 0%N /\
             dll_freed (platform_calls (module_rounds P n w)) =
             dll_loaded (platform_calls (module_rounds P n w))).
  { induction n as [| n IH]; intros w Hg Hbal; [ now split | ].
    cbn. destruct (round_balanced w Hg Hbal) as [Hg' Hbal'].
    now apply IH. }
  now apply Hg.
Qed.

End PluginModuleFacts.

(** ** Runs against the test double *)

Import TestDouble.

(** C1 fails on the code.  A new facade has made no boundary call and holds
    no handle: nothing is allocated at construction.  And in the lifetime
    Start, Stop, Start, destruction the engine gives out the handles 1 and 2,
    only 2 is ever released, and 1 is leaked. *)
Lemma restart_leaks_first_handle :
  let w0 := Create engine Dwebble.Default (answering 0 []) in
  let tr := calls (lifetime engine Dwebble.MakeFfiConfig Dwebble.Default
                            (answering 0 []) [CallStart; CallStop; CallStart]) in
  (calls w0 = [] /\ ServerHandle (self w0) = nullptr) /\
  created tr = [1%N; 2%N] /\ destroyed tr = [2%N] /\ leaked tr = [1%N] /\
  ~ released_exactly_once tr.
Proof.
  cbv zeta. repeat split; try (vm_compute; reflexivity).
  intros H. specialize (H 1%N). vm_compute in H.
  assert (0 = 1)%nat by (apply H; now left). discriminate.
Qed.

(** C4 fails on the code.  With a certificate path and no key path, [Start]
    answers [Ok] against an engine that accepts the configuration; and against
    an engine whose [start] reports INVALID_PARAM, the [InvalidParam] that
    [Start] answers was produced behind the boundary, after a [create] and a
    [start] call, not by the facade. *)
Lemma half_tls_start_can_succeed :
  Dwebble.half_tls cert_only = true /\
  fst (Start engine Dwebble.MakeFfiConfig
             (Create engine cert_only (answering 0 []))) = Ok /\
  fst (Start engine Dwebble.MakeFfiConfig
             (Create engine cert_only (answering 2 []))) = InvalidParam /\
  calls (snd (Start engine Dwebble.MakeFfiConfig
                    (Create engine cert_only (answering 2 [])))) =
  [ rws_create {| port := 0; bind_address := Some "127.0.0.1";
                  subprotocols := None; tls_cert_path := Some "cert.pem";
                  tls_key_path := None |} 1%N;
    rws_start 1%N 2 ].
Proof. repeat split; vm_compute; reflexivity. Qed.


(** The translation of [chat_config]: port 65536 becomes 0, the two
    subprotocols become one string, no TLS path is present. *)
Example MakeFfiConfig_chat :
  DwebbleWebSocket.MakeFfiConfig chat_config =
  {| port := 0; bind_address := Some "127.0.0.1";
     subprotocols := Some "chat,superchat";
     tls_cert_path := None; tls_key_path := None |}.
Proof. reflexivity. Qed.

(** The lifetime Start, Stop, destruction: one handle, released once. *)
Lemma handle_lifetime_witness :
  let tr := calls (lifetime engine Dwebble.MakeFfiConfig Dwebble.Default
                            (answering 0 []) [CallStart; CallStop]) in
  destroyed tr = created tr /\ leaked tr = [].
Proof.
  intros tr.
  destruct (handle_lifetime engine _ Dwebble.MakeFfiConfig Dwebble.Default
                            (answering 0 []) [CallStart; CallStop])
    as (_ & _ & _ & _ & _ & H).
  apply H. vm_compute. lia.
Defined.

(** A first [Start] against an engine that answers OK. *)
Lemma Start_contract_witness :
  let w := Create engine Dwebble.Default (answering 0 []) in
  fst (Start engine Dwebble.MakeFfiConfig w) = Ok /\
  bIsRunning (self (snd (Start engine Dwebble.MakeFfiConfig w))) = true.
Proof.
  intros w.
  apply (proj2 (Start_contract engine _ Dwebble.MakeFfiConfig w) eq_refl
               1%N (TestDouble.set_next (answering 0 []) 2%N) eq_refl)
    with (r := 0) (e2 := TestDouble.set_next (answering 0 []) 2%N).
  - discriminate.
  - reflexivity.
  - reflexivity.
Defined.

(** [Stop] on a running facade whose engine answers RUNTIME_ERROR. *)
Lemma Stop_contract_witness :
  let w : World engine Dwebble.FDwebbleServerConfig :=
    {| self := {| Config := Dwebble.Default; ServerHandle := 1%N;
                  bIsRunning := true |};
       rws := answering 7 [] : engine_state engine; calls := [] |} in
  fst (Stop engine w) = RuntimeError /\
  bIsRunning (self (snd (Stop engine w))) = false.
Proof.
  intros w.
  destruct (proj2 (proj2 (Stop_contract engine _ w)) eq_refl
                  ltac:(discriminate) 7 (answering 7 []) eq_refl)
    as (H1 & H2 & _).
  split; [ exact H1 | exact H2 ].
Defined.

(** An engine outcome that is none of the ten labels. *)
Lemma ConvertResult_total_witness : ConvertResult 42 = RuntimeError.
Proof.
  apply ConvertResult_total.
  vm_compute. intuition discriminate.
Defined.

(** A facade that was never started holds no handle. *)
Lemma no_handle_facade_witness :
  let w := after_calls engine Dwebble.MakeFfiConfig Dwebble.Default
                       (answering 0 [error_event]) [] in
  Send engine 5%N [Byte.x01] w = (InvalidHandle, w) /\
  PollEvent engine FEvent_default w = ((false, FEvent_default), w).
Proof.
  intros w.
  destruct (no_handle_facade engine _ Dwebble.MakeFfiConfig Dwebble.Default
                             (answering 0 [error_event]) [] eq_refl)
    as (_ & HS & _ & _ & _ & _ & _ & HP & _).
  split; [ apply HS | apply HP ].
Defined.

(** An empty message at the head of the queue. *)
Lemma PollEvent_empty_message_witness :
  let w := snd (Start engine Dwebble.MakeFfiConfig
                      (Create engine Dwebble.Default
                              (answering 0 [empty_message]))) in
  fst (fst (PollEvent engine FEvent_default w)) = true /\
  Data (snd (fst (PollEvent engine FEvent_default w))) = [].
Proof.
  intros w.
  destruct (proj1 (PollEvent_empty_message_is_an_event engine _ w FEvent_default)
                  empty_message
                  (TestDouble.set_queue (TestDouble.set_next (answering 0 []) 2%N) [])
                  ltac:(discriminate) eq_refl eq_refl eq_refl)
    as (H1 & _ & _ & H2).
  split; [ exact H1 | exact H2 ].
Defined.

(** The default configuration asks for no subprotocol and no TLS. *)
Lemma config_translation_witness :
  subprotocols (DwebbleWebSocket.MakeFfiConfig DwebbleWebSocket.Default) = None /\
  subprotocols (DwebbleWebSocket.MakeFfiConfig chat_config) =
    Some "chat,superchat".
Proof.
  destruct (proj1 (config_translation engine) DwebbleWebSocket.Default)
    as (H1 & _).
  destruct (proj1 (config_translation engine) chat_config) as (_ & H2 & _).
  split; [ apply H1; reflexivity | apply H2; discriminate ].
Defined.

(** An [InvalidParam] from [Start] is the engine's, also with port 65536. *)
Lemma port_truncated_witness :
  fst (dwebble_rws_server_start engine 1%N
         (TestDouble.set_next (answering 2 []) 2%N)) = 2.
Proof.
  destruct (proj2 (proj2 (proj2 (proj2 (port_truncated_to_16_bits (Hdr := header) engine))))
                  _ Dwebble.MakeFfiConfig
                  (Create engine (Dwebble.with_Port Dwebble.Default 65536)
                          (answering 2 []))
                  eq_refl)
    as (_ & _ & H).
  exact H.
Defined.

(** A certificate without a key, against an engine that accepts it. *)
Lemma half_tls_is_forwarded_witness :
  fst (Start engine Dwebble.MakeFfiConfig
             (Create engine cert_only (answering 0 []))) = Ok.
Proof.
  apply (proj1 (half_tls_is_forwarded engine)
               (Create engine cert_only (answering 0 [])) eq_refl eq_refl).
  split; [ discriminate | reflexivity ].
Defined.

(** ** More runs against the test doubles *)

Ltac handle_held :=
  let H := fresh in intro H; vm_compute in H; discriminate H.

(** Label 3 is the engine's MESSAGE_RECEIVED. *)
Lemma ConvertEventType_total_witness : ConvertEventType 3 = MessageReceived.
Proof.
  apply (proj1 (ConvertEventType_total (Hdr := header)) 3%nat). lia.
Defined.

(** The [send] of the lifetime Start, Send, Stop, destruction. *)
Lemma calls_are_on_live_handles_witness :
  1%N <> nullptr /\
  In 1%N (created
            (calls (lifetime engine Dwebble.MakeFfiConfig Dwebble.Default
                             (answering 0 [])
                             [CallStart; CallSend 5%N [Byte.x01]; CallStop]))).
Proof.
  apply (proj2 (calls_are_on_live_handles
                  engine _ Dwebble.MakeFfiConfig Dwebble.Default
                  (answering 0 [])
                  [CallStart; CallSend 5%N [Byte.x01]; CallStop])
               (rws_send 1%N 5%N [Byte.x01]) 1%N).
  - vm_compute. tauto.
  - reflexivity.
Defined.

(** [Info] on a started facade. *)
Lemma Info_frees_the_engine_string_witness :
  let w := snd (Start engine Dwebble.MakeFfiConfig
                      (Create engine Dwebble.Default (answering 0 []))) in
  fst (Info engine w) = "127.0.0.1:8080" /\
  freed_strings (calls (snd (Info engine w))) = ["127.0.0.1:8080"].
Proof.
  intros w.
  rewrite (proj1 (proj1 (Info_frees_the_engine_string
                           engine _ Dwebble.MakeFfiConfig)
                        w ltac:(handle_held) (rws w))
                 "127.0.0.1:8080" eq_refl).
  split; reflexivity.
Defined.

(** [PollEvent] on a started facade leaves the object alone. *)
Lemma only_Start_and_Stop_change_the_object_witness :
  let w := snd (Start engine Dwebble.MakeFfiConfig
                      (Create engine Dwebble.Default
                              (answering 0 [error_event]))) in
  self (step engine Dwebble.MakeFfiConfig w CallPollEvent) = self w.
Proof.
  intros w.
  apply (proj1 (only_Start_and_Stop_change_the_object
                  engine _ Dwebble.MakeFfiConfig w CallPollEvent)).
  reflexivity.
Defined.

(** Calls on a facade that was never started. *)
Lemma nothing_happens_before_Start_witness :
  after_calls engine Dwebble.MakeFfiConfig Dwebble.Default
              (answering 0 [error_event])
              [CallStop; CallSend 5%N [Byte.x01]; CallInfo; CallPollEvent] =
  Create engine Dwebble.Default (answering 0 [error_event]) /\
  lifetime engine Dwebble.MakeFfiConfig Dwebble.Default
           (answering 0 [error_event])
           [CallStop; CallSend 5%N [Byte.x01]; CallInfo; CallPollEvent] =
  Create engine Dwebble.Default (answering 0 [error_event]).
Proof.
  apply nothing_happens_before_Start. reflexivity.
Defined.

(** Destroying a running facade. *)
Lemma Destructor_stops_then_destroys_witness :
  let w := snd (Start engine Dwebble.MakeFfiConfig
                      (Create engine Dwebble.Default (answering 0 []))) in
  calls (snd (Destructor engine w)) =
  (calls w ++ [rws_stop 1%N 0; rws_destroy 1%N])%list.
Proof.
  intros w.
  apply (proj1 (Destructor_stops_then_destroys engine _ w)).
  handle_held.
Defined.

(** [Send] on a facade that was started and stopped. *)
Lemma data_operations_need_only_a_handle_witness :
  let w := snd (Stop engine
                     (snd (Start engine Dwebble.MakeFfiConfig
                                 (Create engine Dwebble.Default
                                         (answering 0 []))))) in
  bIsRunning (self w) = false /\
  fst (Send engine 5%N [Byte.x01] w) = Ok.
Proof.
  intros w. split; [ reflexivity | ].
  rewrite (proj1 (data_operations_need_only_a_handle
                    engine _ w 5%N ltac:(handle_held)) [Byte.x01]).
  reflexivity.
Defined.

(** The port of a started facade. *)
Lemma queries_convert_to_int32_witness :
  let w := snd (Start engine Dwebble.MakeFfiConfig
                      (Create engine Dwebble.Default (answering 0 []))) in
  fst (GetPort engine w) = 8080.
Proof.
  intros w.
  apply (proj1 (queries_convert_to_int32 engine _ w ltac:(handle_held))).
  cbn. lia.
Defined.

(** Polling into a fresh event and into a used one. *)
Lemma PollEvent_overwrites_OutEvent_witness :
  let w := snd (Start engine Dwebble.MakeFfiConfig
                      (Create engine Dwebble.Default
                              (answering 0 [empty_message]))) in
  PollEvent engine FEvent_default w =
  PollEvent engine {| EventType := Error; ConnectionId := 9%N;
                      Data := [Byte.xff]; ErrorMessage := "old" |} w.
Proof.
  intros w. apply PollEvent_overwrites_OutEvent. reflexivity.
Defined.

(** The three bytes of [error_event]. *)
Lemma marshal_copies_the_payload_witness :
  Data (marshal error_event) = [Byte.x01; Byte.x02; Byte.x03].
Proof.
  apply (proj1 (marshal_copies_the_payload error_event)); reflexivity.
Defined.

(** Port 8080. *)
Lemma port_in_range_is_unchanged_witness :
  port (Dwebble.MakeFfiConfig (Dwebble.with_Port Dwebble.Default 8080)) = 8080.
Proof.
  apply (proj1 (proj2 (proj1 port_in_range_is_unchanged
                             (Dwebble.with_Port Dwebble.Default 8080)))).
  cbn. lia.
Defined.

(** Starting the module on a machine without the library. *)
Lemma StartupModule_loads_if_present_witness :
  StartupModule PlatformDouble.platform
                (module_initial PlatformDouble.platform
                                PlatformDouble.not_installed) =
  {| GDwebbleRwsDllHandle := 0%N;
     platform := PlatformDouble.not_installed : platform_state PlatformDouble.platform;
     platform_calls :=
       [log_not_found "Plugins/Dwebble/Binaries/Win64/dwebble_rws.dll"] |}.
Proof.
  apply (proj1 (StartupModule_loads_if_present
                  PlatformDouble.platform
                  (module_initial PlatformDouble.platform
                                  PlatformDouble.not_installed))).
  reflexivity.
Defined.

(** Two rounds on a machine with the library: handles 1 and 2, both freed. *)
Example module_rounds_run :
  dll_freed (platform_calls
               (module_rounds PlatformDouble.platform 2
                              (module_initial PlatformDouble.platform
                                              PlatformDouble.installed)))
  = [1%N; 2%N].
Proof. vm_compute. reflexivity. Qed.
